(** * pgespresso: concurrent on-line backup entry points

    A shallow embedding of [pgespresso.c] (the three SQL-callable functions
    [pgespresso_start_backup], [pgespresso_stop_backup] and
    [pgespresso_abort_backup]) together with the properties its design
    document states about them.

    The C functions are thin wrappers around the PostgreSQL backend; the
    backend is an interface here ([backend]), and the wrappers are written in
    a small state-and-error monad ([fmgr]) over the calling process. *)

From Stdlib Require Import ZArith String Ascii List Bool Lia.
From stdpp Require Import base option gmap strings.

Local Open Scope Z_scope.

(** ** Scalar types of [access/xlogdefs.h] *)

(** [TimeLineID] is a [uint32]. *)
Definition TimeLineID := Z.
(** [XLogRecPtr]: a [uint64] from 9.3 on; before that a struct of two
    [uint32] fields, [xlogid] (high word) and [xrecoff] (low word). *)
Definition XLogRecPtr := Z.
(** [XLogSegNo] is a [uint64]. *)
Definition XLogSegNo := Z.

Definition uint32 (z : Z) : Z := z mod 2 ^ 32.
Definition uint64 (z : Z) : Z := z mod 2 ^ 64.

Definition xlogid (p : XLogRecPtr) : Z := Z.shiftr p 32.
Definition xrecoff (p : XLogRecPtr) : Z := Z.land p (Z.ones 32).

(** ** Build configuration ([pg_config.h]) *)

Record pg_config := {
  PG_VERSION_NUM : Z;
  XLOG_SEG_SIZE : Z
}.

(** ** Strings crossing the SQL boundary

    A [text] datum is a varlena whose payload holds no NUL byte; a [char *]
    is the same bytes followed by a terminator.  The two conversions of
    [utils/builtins.h] copy the payload. *)

Definition cstring := string.

Inductive text := mk_text (VARDATA : string).

Definition text_to_cstring (t : text) : cstring :=
  match t with mk_text s => s end.

Definition cstring_to_text (s : cstring) : text := mk_text s.

(** ** Errors

    [ereport(ERROR, ...)] leaves the function by a non-local exit carrying an
    SQLSTATE.  [ERRCODE_INSUFFICIENT_PRIVILEGE] is the one the source raises
    itself; the other two are the conditions the design document names for
    failures raised inside the backend. *)

Inductive sqlstate :=
  | ERRCODE_INSUFFICIENT_PRIVILEGE
  | UnknownSession
  | EngineFailure.

(** ** The backend interface

    [X] is everything the backend owns (shared memory, control file, the
    caller's role).  Calls that can [ereport] return an [outcome].  The
    backend reads the process-global [ThisTimeLineID] but does not assign it
    in any of these entry points, so it is handed over as an argument. *)

Inductive outcome (X A : Type) :=
  | Ok (a : A) (x : X)
  | Err (e : sqlstate) (x : X).
Arguments Ok {X A} a x.
Arguments Err {X A} e x.

Record backend (X : Type) := {
  (* bool superuser(void) *)
  superuser : X -> bool;
  (* bool RecoveryInProgress(void) *)
  RecoveryInProgress : X -> bool;
  (* XLogRecPtr GetXLogReplayRecPtr(TimeLineID *replayTLI) *)
  GetXLogReplayRecPtr : X -> XLogRecPtr * TimeLineID;
  (* XLogRecPtr do_pg_start_backup(const char *backupidstr, bool fast,
                                   [TimeLineID *starttli_p,] char **labelfile) *)
  do_pg_start_backup :
    cstring -> bool -> TimeLineID -> X -> outcome X (XLogRecPtr * cstring);
  (* XLogRecPtr do_pg_stop_backup(char *labelfile, bool waitforarchive
                                  [, TimeLineID *stoptli_p]) *)
  do_pg_stop_backup :
    cstring -> bool -> TimeLineID -> X -> outcome X (XLogRecPtr * TimeLineID);
  (* void do_pg_abort_backup(void); like any backend function it may
     ereport *)
  do_pg_abort_backup : X -> outcome X unit
}.
Arguments superuser {X} _ _.
Arguments RecoveryInProgress {X} _ _.
Arguments GetXLogReplayRecPtr {X} _ _.
Arguments do_pg_start_backup {X} _ _ _ _ _.
Arguments do_pg_stop_backup {X} _ _ _ _ _.
Arguments do_pg_abort_backup {X} _ _.

(** ** The calling process and the function-manager monad *)

Record process (X : Type) := {
  ThisTimeLineID : TimeLineID;
  xlog : X
}.
Arguments Build_process {X} _ _.
Arguments ThisTimeLineID {X} _.
Arguments xlog {X} _.

Inductive result (X A : Type) :=
  | Return (a : A) (p : process X)
  | Error (e : sqlstate) (p : process X).
Arguments Return {X A} a p.
Arguments Error {X A} e p.

Definition state_of {X A} (r : result X A) : process X :=
  match r with Return _ p => p | Error _ p => p end.

Definition fmgr (X A : Type) : Type := process X -> result X A.

Global Instance fmgr_ret {X} : MRet (fmgr X) :=
  fun A (a : A) p => Return a p.

Global Instance fmgr_bind {X} : MBind (fmgr X) :=
  fun A B (k : A -> fmgr X B) (m : fmgr X A) p =>
    match m p with
    | Return a p' => k a p'
    | Error e p' => Error e p'
    end.

(** [ereport(ERROR, (errcode(e), ...))]. *)
Definition ereport {X A} (e : sqlstate) : fmgr X A := fun p => Error e p.

(** A backend call that only inspects the backend. *)
Definition query {X A} (f : X -> A) : fmgr X A :=
  fun p => Return (f (xlog p)) p.

(** A backend call that may change the backend or raise. *)
Definition call {X A} (f : TimeLineID -> X -> outcome X A) : fmgr X A :=
  fun p => match f (ThisTimeLineID p) (xlog p) with
           | Ok a x => Return a (Build_process (ThisTimeLineID p) x)
           | Err e x => Error e (Build_process (ThisTimeLineID p) x)
           end.

(** A backend call of type [void f(void)]; the source wraps it in no
    [PG_TRY], so an error raised inside leaves the caller too. *)
Definition call_void {X} (f : X -> outcome X unit) : fmgr X unit :=
  fun p => match f (xlog p) with
           | Ok _ x => Return tt (Build_process (ThisTimeLineID p) x)
           | Err e x => Error e (Build_process (ThisTimeLineID p) x)
           end.

(** [ThisTimeLineID = tli;] *)
Definition set_ThisTimeLineID {X} (tli : TimeLineID) : fmgr X unit :=
  fun p => Return tt (Build_process tli (xlog p)).

Definition get_ThisTimeLineID {X} : fmgr X TimeLineID :=
  fun p => Return (ThisTimeLineID p) p.

(** ** [printf]'s [%08X] on a [uint32] *)

Definition hex_digit (d : Z) : ascii :=
  match d with
  | 0 => "0" | 1 => "1" | 2 => "2" | 3 => "3"
  | 4 => "4" | 5 => "5" | 6 => "6" | 7 => "7"
  | 8 => "8" | 9 => "9" | 10 => "A" | 11 => "B"
  | 12 => "C" | 13 => "D" | 14 => "E" | _ => "F"
  end%char.

Fixpoint hex_fixed (width : nat) (x : Z) : string :=
  match width with
  | O => EmptyString
  | S w => String (hex_digit (Z.land (Z.shiftr x (4 * Z.of_nat w)) 15))
                  (hex_fixed w x)
  end.

Definition fmt_08X (x : Z) : string := hex_fixed 8 x.

(** ** Segment arithmetic and file names

    [XLogSegSize], [XLogSegmentsPerXLogId], [XLByteToPrevSeg] and
    [XLogFileName] are macros of PostgreSQL's [access/xlog_internal.h], which
    this repository includes but does not contain.  The design document (4.3,
    Segment Filename Encoder) asks for the segment that ends at the last
    boundary reached by the position, the preceding segment when the
    position sits on a boundary, printed with the timeline as a name of fixed
    width.  The segment is therefore the one that holds the byte just before
    the position, and the name is the timeline and the segment as zero-padded
    upper-case hexadecimal fields, 24 characters in all, which is how WAL
    segment files are named.

    The source uses the macros in two shapes, chosen by [PG_VERSION_NUM]:
    from 9.3 on a position is one [uint64] and a segment one [XLogSegNo];
    before, a position is the pair ([xlogid], [xrecoff]) and a segment the
    pair ([log], [seg]). *)

(** Modelled from the spec: the macro [XLogSegSize], absent from the
    sources; the fixed size of a segment, as a [uint32]. *)
Definition XLogSegSize (cfg : pg_config) : Z := uint32 (XLOG_SEG_SIZE cfg).

Module Pg93.

(** Modelled from the spec: the macro [XLogSegmentsPerXLogId], absent from
    the sources; the number of segments in the 4 GB that the middle field of
    a file name counts. *)
Definition XLogSegmentsPerXLogId (cfg : pg_config) : Z :=
  4294967296 / XLOG_SEG_SIZE cfg.

(** Modelled from the spec: the macro [XLByteToPrevSeg(xlrp, logSegNo)],
    absent from the sources; the segment of the byte before [xlrp], in
    [uint64] arithmetic: [logSegNo = (xlrp - 1) / XLogSegSize]. *)
Definition XLByteToPrevSeg (cfg : pg_config) (xlrp : XLogRecPtr) : XLogSegNo :=
  uint64 (xlrp - 1) / XLogSegSize cfg.

(** Modelled from the spec: the macro [XLogFileName(fname, tli, logSegNo)],
    absent from the sources; [snprintf] with the format [%08X%08X%08X] of
    the timeline and of the two [uint32] halves of the segment number. *)
Definition XLogFileName (cfg : pg_config) (tli : TimeLineID)
    (logSegNo : XLogSegNo) : cstring :=
  fmt_08X tli
  +:+ fmt_08X (uint32 (logSegNo / XLogSegmentsPerXLogId cfg))
  +:+ fmt_08X (uint32 (logSegNo mod XLogSegmentsPerXLogId cfg)).

End Pg93.

Module Pg92.

(** Modelled from the spec: the macro [XLByteToPrevSeg(xlrp, logId, logSeg)],
    absent from the sources; the segment of the byte before [xlrp] within
    its log file, in [uint32] arithmetic: [logId = xlrp.xlogid] and
    [logSeg = (xlrp.xrecoff - 1) / XLogSegSize]. *)
Definition XLByteToPrevSeg (cfg : pg_config) (xlrp : XLogRecPtr) : Z * Z :=
  (xlogid xlrp, uint32 (xrecoff xlrp - 1) / XLogSegSize cfg).

(** Modelled from the spec: the macro [XLogFileName(fname, tli, log, seg)],
    absent from the sources; [snprintf] with the format [%08X%08X%08X]. *)
Definition XLogFileName (tli : TimeLineID) (log seg : Z) : cstring :=
  fmt_08X tli +:+ fmt_08X log +:+ fmt_08X seg.

End Pg92.

(** ** The three entry points of [pgespresso.c] *)

Section Pgespresso.

Context {X : Type}.
Variable cfg : pg_config.
Variable pg : backend X.

(** The block that both [pgespresso_start_backup] and the pre-9.3 branch of
    [pgespresso_stop_backup] contain:
<<
    if (RecoveryInProgress()) {
        TimeLineID  replayTLI;
        GetXLogReplayRecPtr(&replayTLI);
        ThisTimeLineID = replayTLI;
        elog(DEBUG1, "updated ThisTimeLineID = %u", ThisTimeLineID);
    }
>>
    ([elog] at [DEBUG1] only writes to the server log.) *)
Definition update_ThisTimeLineID : fmgr X unit :=
  in_recovery ← query (RecoveryInProgress pg);
  if (in_recovery : bool) then
    ('(_, replayTLI) ← query (GetXLogReplayRecPtr pg);
     set_ThisTimeLineID replayTLI)
  else
    mret tt.

(** [if (!superuser()) ereport(ERROR, (errcode(ERRCODE_INSUFFICIENT_PRIVILEGE), ...))] *)
Definition check_superuser : fmgr X unit :=
  su ← query (superuser pg);
  if negb su then ereport ERRCODE_INSUFFICIENT_PRIVILEGE else mret tt.

Definition pgespresso_start_backup (backupid : text) (fast : bool)
    : fmgr X text :=
  let backupidstr := text_to_cstring backupid in
  check_superuser;;
  update_ThisTimeLineID;;
  (* both branches of the [#if] make the same call; from 9.3 on the extra
     [starttli_p] argument is NULL *)
  '(_, labelfile) ← call (do_pg_start_backup pg backupidstr fast);
  mret (cstring_to_text labelfile).

Definition pgespresso_stop_backup (labelfile : text) : fmgr X text :=
  let backupidstr := text_to_cstring labelfile in
  check_superuser;;
  xlogfilename ←
    (if 90300 <=? PG_VERSION_NUM cfg then
       ('(stoppoint, endtli) ←
          call (do_pg_stop_backup pg backupidstr false (* don't wait for archive *));
        let xlogsegno := Pg93.XLByteToPrevSeg cfg stoppoint in
        mret (Pg93.XLogFileName cfg endtli xlogsegno))
     else
       ('(stoppoint, _) ←
          call (do_pg_stop_backup pg backupidstr false (* don't wait for archive *));
        update_ThisTimeLineID;;
        let '(xlogid, xlogseg) := Pg92.XLByteToPrevSeg cfg stoppoint in
        tli ← get_ThisTimeLineID;
        mret (Pg92.XLogFileName tli xlogid xlogseg)));
  mret (cstring_to_text xlogfilename).

Definition pgespresso_abort_backup : fmgr X unit :=
  check_superuser;;
  call_void (do_pg_abort_backup pg);;
  mret tt.

End Pgespresso.

(** ** The Backup Session Registry

    Everything in this module is modelled from the design document: the
    functions [do_pg_start_backup], [do_pg_stop_backup] and
    [do_pg_abort_backup] that the entry points call belong to the PostgreSQL
    backend and are not among the sources. *)

Module Registry.

(** Modelled from the spec: the record [BackupSession] of section 3 (Data
    Model), which no source file declares. *)
Record BackupSession := {
  id : nat;
  label : string;
  start_position : XLogRecPtr;
  start_timeline : TimeLineID;
  start_time : Z;
  fast : bool
}.

(** Modelled from the spec: the record [GlobalBackupState] of section 3,
    which no source file declares. *)
Record GlobalBackupState := {
  sessions : gmap nat BackupSession;
  force_full_page_writes_refcount : Z
}.

(** Modelled from the spec: what the external collaborators of section 6
    answer at the time of a call ([authorize], the recovery status,
    [current_replay_timeline], [current_log_write_position],
    [last_checkpoint_log_position], the wall clock), whether a collaborator
    call fails ([EngineFailure]), and the session that the calling context
    holds, which is what [abort] acts on: the source passes it no argument. *)
Record collaborators := {
  authorized : bool;
  in_recovery : bool;
  current_replay_timeline : TimeLineID;
  current_log_write_position : XLogRecPtr;
  last_checkpoint_log_position : XLogRecPtr;
  wall_clock : Z;
  collaborator_fails : bool;
  context_session : option nat
}.

(** Modelled from the spec: the backend as the registry sees it, namely the
    shared [GlobalBackupState], the enforcement switch that
    [set_full_page_write_enforcement] toggles, the allocator of session ids,
    and the collaborators. *)
Record engine := {
  state : GlobalBackupState;
  full_page_write_enforcement : bool;
  next_id : nat;
  ext : collaborators
}.

(** Modelled from the spec: the same backend at another moment, when the
    collaborators answer [c]. *)
Definition with_ext (c : collaborators) (e : engine) : engine :=
  {| state := state e;
     full_page_write_enforcement := full_page_write_enforcement e;
     next_id := next_id e;
     ext := c |}.

(** Modelled from the spec: [force_checkpoint()] of section 6; once it
    returns, the last completed checkpoint is at the write position. *)
Definition force_checkpoint (c : collaborators) : collaborators :=
  {| authorized := authorized c;
     in_recovery := in_recovery c;
     current_replay_timeline := current_replay_timeline c;
     current_log_write_position := current_log_write_position c;
     last_checkpoint_log_position := current_log_write_position c;
     wall_clock := wall_clock c;
     collaborator_fails := collaborator_fails c;
     context_session := context_session c |}.

(** Modelled from the spec: [capture_start] of section 4.2, without the
    timeline, which the caller has already resolved into [ThisTimeLineID]. *)
Definition capture_start (fast : bool) (c : collaborators)
    : XLogRecPtr * collaborators :=
  if fast then
    let c' := force_checkpoint c in (last_checkpoint_log_position c', c')
  else (last_checkpoint_log_position c, c).

(** Modelled from the spec: the Timeline Resolver of section 4.1, as the
    backend applies it on the stop side. *)
Definition resolve_timeline (c : collaborators) (this : TimeLineID)
    : TimeLineID :=
  if in_recovery c then current_replay_timeline c else this.

(** Modelled from the spec: [capture_stop] of section 4.2. *)
Definition capture_stop (c : collaborators) (this : TimeLineID)
    : XLogRecPtr * TimeLineID :=
  (current_log_write_position c, resolve_timeline c this).

(** Modelled from the spec: the line separator of the label text. *)
Definition newline : string := String (ascii_of_nat 10) EmptyString.

(** Modelled from the spec: [format_label] of section 4.4.  The text holds
    the start position, the start timeline, the start time and the caller's
    label, one per line, numbers in fixed-width hexadecimal. *)
Definition format_label (s : BackupSession) : cstring :=
  "START WAL LOCATION: " +:+ fmt_08X (xlogid (start_position s))
     +:+ "/" +:+ fmt_08X (xrecoff (start_position s)) +:+ newline
  +:+ "START TIMELINE: " +:+ fmt_08X (start_timeline s) +:+ newline
  +:+ "START TIME: " +:+ hex_fixed 16 (start_time s) +:+ newline
  +:+ "LABEL: " +:+ label s +:+ newline.

(** Modelled from the spec: the open session that [stop] of section 4.5 is
    asked to close.  The source identifies it by the label text, the only
    value start hands out, so it is an open session whose label text is the
    one given, if there is any. *)
Definition session_of_labelfile (m : gmap nat BackupSession)
    (labelfile : cstring) : option BackupSession :=
  snd <$> list_find (fun s => format_label s = labelfile) (snd <$> map_to_list m).

(** Modelled from the spec: the registry update of [start] in section 4.5:
    insert, increment, and switch enforcement on at the 0 to 1 transition. *)
Definition open_session (s : BackupSession) (e : engine) : engine :=
  let n := force_full_page_writes_refcount (state e) in
  {| state := {| sessions := <[id s := s]> (sessions (state e));
                 force_full_page_writes_refcount := n + 1 |};
     full_page_write_enforcement :=
       if n =? 0 then true else full_page_write_enforcement e;
     next_id := S (next_id e);
     ext := ext e |}.

(** Modelled from the spec: the registry update shared by [stop] and [abort]
    in section 4.5: remove, decrement, and switch enforcement off at the 1 to
    0 transition. *)
Definition close_session (i : nat) (e : engine) : engine :=
  let n := force_full_page_writes_refcount (state e) - 1 in
  {| state := {| sessions := delete i (sessions (state e));
                 force_full_page_writes_refcount := n |};
     full_page_write_enforcement :=
       if n =? 0 then false else full_page_write_enforcement e;
     next_id := next_id e;
     ext := ext e |}.

(** Modelled from the spec: [start] of section 4.5, behind the signature
    under which the source calls it. *)
Definition do_pg_start_backup (backupidstr : cstring) (fast : bool)
    (this : TimeLineID) (e : engine) : outcome engine (XLogRecPtr * cstring) :=
  if collaborator_fails (ext e) then Err EngineFailure e
  else
    let '(startpoint, c) := capture_start fast (ext e) in
    let s := {| id := next_id e;
                label := backupidstr;
                start_position := startpoint;
                start_timeline := this;
                start_time := wall_clock c;
                fast := fast |} in
    Ok (startpoint, format_label s) (open_session s (with_ext c e)).

(** Modelled from the spec: [stop] of section 4.5, behind the signature under
    which the source calls it; the session is the one the label text
    designates. *)
Definition do_pg_stop_backup (labelfile : cstring) (waitforarchive : bool)
    (this : TimeLineID) (e : engine) : outcome engine (XLogRecPtr * TimeLineID) :=
  match session_of_labelfile (sessions (state e)) labelfile with
  | None => Err UnknownSession e
  | Some s =>
      if collaborator_fails (ext e) then Err EngineFailure e
      else Ok (capture_stop (ext e) this) (close_session (id s) e)
  end.

(** Modelled from the spec: [abort] of section 4.5; a no-op when the calling
    context holds no open session. *)
Definition do_pg_abort_backup (e : engine) : engine :=
  match context_session (ext e) with
  | Some i =>
      match sessions (state e) !! i with
      | Some _ => close_session i e
      | None => e
      end
  | None => e
  end.

(** Modelled from the spec: the backend interface of the source, filled in
    with the registry and the collaborators above. *)
Definition pg : backend engine :=
  Build_backend engine
    (fun e => authorized (ext e))
    (fun e => in_recovery (ext e))
    (fun e => (current_log_write_position (ext e),
               current_replay_timeline (ext e)))
    do_pg_start_backup
    do_pg_stop_backup
    (fun e => Ok tt (do_pg_abort_backup e)).

End Registry.

(** ** Sequences of calls

    Between two calls the system is quiescent.  Each call is made by some
    backend process, with its own [ThisTimeLineID], at a moment when the
    collaborators answer in some way; the registry is what the calls share. *)

Module Trace.
Import Registry.

Inductive operation :=
  | start (backupid : text) (fast : bool)
  | stop (labelfile : text)
  | abort.

Record event := {
  answers : collaborators;
  caller_timeline : TimeLineID;
  op : operation
}.

Definition init : engine :=
  {| state := {| sessions := ∅; force_full_page_writes_refcount := 0 |};
     full_page_write_enforcement := false;
     next_id := O;
     ext := {| authorized := false;
               in_recovery := false;
               current_replay_timeline := 0;
               current_log_write_position := 0;
               last_checkpoint_log_position := 0;
               wall_clock := 0;
               collaborator_fails := false;
               context_session := None |} |}.

Definition perform (cfg : pg_config) (o : operation) : fmgr engine unit :=
  match o with
  | start backupid fast => pgespresso_start_backup pg backupid fast;; mret tt
  | stop labelfile => pgespresso_stop_backup cfg pg labelfile;; mret tt
  | abort => pgespresso_abort_backup pg
  end.

Definition step (cfg : pg_config) (e : engine) (ev : event) : engine :=
  xlog (state_of (perform cfg (op ev)
                    (Build_process (caller_timeline ev)
                                   (with_ext (answers ev) e)))).

Definition run (cfg : pg_config) (evs : list event) (e : engine) : engine :=
  fold_left (step cfg) evs e.

End Trace.

(** ** Vocabulary of the statements *)

(** The segment sizes a build can have: the size fits a [uint32] and divides
    the 4 GB that one [xlogid] spans. *)
Definition valid_config (cfg : pg_config) : Prop :=
  0 < XLOG_SEG_SIZE cfg < 4294967296
  /\ 4294967296 mod XLOG_SEG_SIZE cfg = 0.

(** The positions the backend can hand out: zero is [InvalidXLogRecPtr], and
    before 9.3 no position has [xrecoff] zero. *)
Definition valid_position (cfg : pg_config) (position : XLogRecPtr) : Prop :=
  0 < position < 2 ^ 64
  /\ (PG_VERSION_NUM cfg < 90300 -> xrecoff position <> 0).

Section Vocabulary.

Context {X : Type}.
Variable cfg : pg_config.
Variable pg : backend X.

(** The Segment Filename Encoder of the design document: the two macro calls
    that end [pgespresso_stop_backup], for the build at hand. *)
Definition segment_name (position : XLogRecPtr) (timeline : TimeLineID)
    : cstring :=
  if 90300 <=? PG_VERSION_NUM cfg then
    Pg93.XLogFileName cfg timeline (Pg93.XLByteToPrevSeg cfg position)
  else
    let '(log, seg) := Pg92.XLByteToPrevSeg cfg position in
    Pg92.XLogFileName timeline log seg.

(** The timeline a process in state [p] resolves: the one being replayed
    when the backend is in recovery, its own otherwise. *)
Definition resolved_timeline (p : process X) : TimeLineID :=
  if RecoveryInProgress pg (xlog p)
  then snd (GetXLogReplayRecPtr pg (xlog p))
  else ThisTimeLineID p.

(** The timeline that goes into the file name: the one the backend reports
    from 9.3 on, the resolved one before. *)
Definition stop_timeline (endtli : TimeLineID) (p : process X) : TimeLineID :=
  if 90300 <=? PG_VERSION_NUM cfg then endtli else resolved_timeline p.

(** What [pgespresso_stop_backup] makes of the backend's answer, for a
    caller whose [ThisTimeLineID] was [this]. *)
Definition stop_reply (o : outcome X (XLogRecPtr * TimeLineID))
    (this : TimeLineID) : result X text :=
  match o with
  | Ok (stoppoint, endtli) x =>
      let p := Build_process this x in
      Return (cstring_to_text (segment_name stoppoint (stop_timeline endtli p)))
             (if 90300 <=? PG_VERSION_NUM cfg then p
              else Build_process (resolved_timeline p) x)
  | Err e x => Error e (Build_process this x)
  end.

(** What [pgespresso_start_backup] makes of the backend's answer. *)
Definition start_reply (o : outcome X (XLogRecPtr * cstring))
    (this : TimeLineID) : result X text :=
  match o with
  | Ok (_, labelfile) x =>
      Return (cstring_to_text labelfile) (Build_process this x)
  | Err e x => Error e (Build_process this x)
  end.

(** The same backend, except for what [do_pg_stop_backup] does when it is
    asked to wait for the archiver. *)
Definition with_archive_wait
    (waiting : cstring -> TimeLineID -> X -> outcome X (XLogRecPtr * TimeLineID))
    : backend X :=
  Build_backend X
    (superuser pg) (RecoveryInProgress pg) (GetXLogReplayRecPtr pg)
    (do_pg_start_backup pg)
    (fun labelfile waitforarchive =>
       if waitforarchive then waiting labelfile
       else do_pg_stop_backup pg labelfile false)
    (do_pg_abort_backup pg).

End Vocabulary.

Module Invariants.
Import Registry.

(** The invariant of [GlobalBackupState], with the enforcement switch. *)
Definition refcount_matches (e : engine) : Prop :=
  force_full_page_writes_refcount (state e)
    = Z.of_nat (size (sessions (state e)))
  /\ (full_page_write_enforcement e = true
      <-> force_full_page_writes_refcount (state e) <> 0).

(** Sessions are filed under their own id, and ids come from the allocator. *)
Definition ids_allocated (e : engine) : Prop :=
  forall i s, sessions (state e) !! i = Some s ->
              id s = i /\ (i < next_id e)%nat.

Definition consistent (e : engine) : Prop :=
  refcount_matches e /\ ids_allocated e.

End Invariants.

(** ** Sample configurations and states *)

Module Sample.
Import Registry Trace.

Definition pg_9_3 : pg_config :=
  {| PG_VERSION_NUM := 90300; XLOG_SEG_SIZE := 16777216 |}.

Definition pg_9_2 : pg_config :=
  {| PG_VERSION_NUM := 90200; XLOG_SEG_SIZE := 16777216 |}.

(** Collaborators of a server at a given write position, whose last
    checkpoint was at position 100 and whose recovery, when it is in
    recovery, replays timeline 5. *)
Definition answers_at (auth recovering : bool) (position : XLogRecPtr)
    : collaborators :=
  {| authorized := auth;
     in_recovery := recovering;
     current_replay_timeline := 5;
     current_log_write_position := position;
     last_checkpoint_log_position := 100;
     wall_clock := 1000;
     collaborator_fails := false;
     context_session := None |}.

(** A caller without the privilege, on a standby, no backup running. *)
Definition intruder : process engine :=
  Build_process 0 (with_ext (answers_at false true 300) init).

(** A privileged caller on a primary on timeline 1, no backup running. *)
Definition operator : process engine :=
  Build_process 1 (with_ext (answers_at true false 150) init).

(** A privileged caller on a standby, no backup running. *)
Definition standby_operator : process engine :=
  Build_process 0 (with_ext (answers_at true true 150) init).

Definition nightly : text := mk_text "nightly".

(** [operator] once it has started the backup "nightly", and the registry
    at that point. *)
Definition after_nightly : process engine :=
  state_of (pgespresso_start_backup pg nightly false operator).

Definition one_open : engine := xlog after_nightly.

(** The label text that call returned. *)
Definition nightly_label : text :=
  match pgespresso_start_backup pg nightly false operator with
  | Return t _ => t
  | Error _ _ => mk_text EmptyString
  end.

(** A privileged caller when "nightly" is open and the log has reached
    [position]. *)
Definition operator_at (recovering : bool) (position : XLogRecPtr)
    : process engine :=
  Build_process 1 (with_ext (answers_at true recovering position) one_open).

(** The first scenario of the design document (section 8): "nightly" is
    started at position 100 and "adhoc", fast, at 150; "nightly" is stopped
    at 300; the context that holds "adhoc", session 1, aborts. *)
Definition scenario : list event :=
  [ {| answers := answers_at true false 150;
       caller_timeline := 1;
       op := start nightly false |};
    {| answers := answers_at true false 150;
       caller_timeline := 1;
       op := start (mk_text "adhoc") true |};
    {| answers := answers_at true false 300;
       caller_timeline := 1;
       op := stop nightly_label |};
    {| answers :=
         {| authorized := true;
            in_recovery := false;
            current_replay_timeline := 5;
            current_log_write_position := 300;
            last_checkpoint_log_position := 150;
            wall_clock := 1000;
            collaborator_fails := false;
            context_session := Some 1%nat |};
       caller_timeline := 1;
       op := abort |} ].

(** The refcount and the enforcement switch after the first [n] calls. *)
Definition books_after (n : nat) : Z * bool :=
  let e := run pg_9_3 (take n scenario) init in
  (force_full_page_writes_refcount (state e), full_page_write_enforcement e).

End Sample.

(** ** Variations of a backend, and call sequences on any backend *)

Section Variations.

Context {X : Type}.
Variable cfg : pg_config.
Variable pg : backend X.

(** The same backend, except for what it says about recovery. *)
Definition with_recovery_status (in_recovery : X -> bool)
    (replay : X -> XLogRecPtr * TimeLineID) : backend X :=
  Build_backend X
    (superuser pg) in_recovery replay
    (do_pg_start_backup pg) (do_pg_stop_backup pg) (do_pg_abort_backup pg).

(** The same backend, except for the timeline that [do_pg_stop_backup]
    reports through [stoptli_p]. *)
Definition with_reported_endtli (f : TimeLineID -> TimeLineID) : backend X :=
  Build_backend X
    (superuser pg) (RecoveryInProgress pg) (GetXLogReplayRecPtr pg)
    (do_pg_start_backup pg)
    (fun labelfile waitforarchive this x =>
       match do_pg_stop_backup pg labelfile waitforarchive this x with
       | Ok (stoppoint, endtli) x' => Ok (stoppoint, f endtli) x'
       | Err e x' => Err e x'
       end)
    (do_pg_abort_backup pg).

(** One call of an entry point, its return value dropped. *)
Definition perform_on (o : Trace.operation) : fmgr X unit :=
  match o with
  | Trace.start backupid fast => pgespresso_start_backup pg backupid fast;; mret tt
  | Trace.stop labelfile => pgespresso_stop_backup cfg pg labelfile;; mret tt
  | Trace.abort => pgespresso_abort_backup pg
  end.

(** A process making calls one after the other, errors or not. *)
Definition run_on (ops : list Trace.operation) (p : process X) : process X :=
  fold_left (fun q o => state_of (perform_on o q)) ops p.

End Variations.

(** * Properties *)

(** ** The entry points, step by step *)

Section Unfolding.

Context {X : Type}.
Variable cfg : pg_config.
Variable pg : backend X.

Lemma check_superuser_eq (p : process X) :
  check_superuser pg p =
    if superuser pg (xlog p) then Return tt p
    else Error ERRCODE_INSUFFICIENT_PRIVILEGE p.
Proof.
  unfold check_superuser, mbind, fmgr_bind, query, ereport, mret, fmgr_ret.
  now destruct (superuser pg (xlog p)).
Qed.

Lemma update_ThisTimeLineID_eq (p : process X) :
  update_ThisTimeLineID pg p =
    Return tt (Build_process (resolved_timeline pg p) (xlog p)).
Proof.
  unfold update_ThisTimeLineID, resolved_timeline, mbind, fmgr_bind, query,
    set_ThisTimeLineID, mret, fmgr_ret.
  destruct p as [tli x]; simpl.
  destruct (RecoveryInProgress pg x); [|reflexivity].
  cbn [xlog]. now destruct (GetXLogReplayRecPtr pg x).
Qed.

Lemma pgespresso_start_backup_eq (backupid : text) (fast : bool) (p : process X) :
  pgespresso_start_backup pg backupid fast p =
    if superuser pg (xlog p) then
      start_reply
        (do_pg_start_backup pg (text_to_cstring backupid) fast
           (resolved_timeline pg p) (xlog p))
        (resolved_timeline pg p)
    else Error ERRCODE_INSUFFICIENT_PRIVILEGE p.
Proof.
  unfold pgespresso_start_backup.
  unfold mbind at 1, fmgr_bind at 1. rewrite check_superuser_eq.
  destruct (superuser pg (xlog p)); [|reflexivity].
  unfold mbind at 1, fmgr_bind at 1. rewrite update_ThisTimeLineID_eq.
  unfold mbind, fmgr_bind, call, start_reply, mret, fmgr_ret; simpl.
  destruct (do_pg_start_backup pg _ fast _ (xlog p)) as [[sp lf] x|e x];
    reflexivity.
Qed.

Lemma pgespresso_stop_backup_eq (labelfile : text) (p : process X) :
  pgespresso_stop_backup cfg pg labelfile p =
    if superuser pg (xlog p) then
      stop_reply cfg pg
        (do_pg_stop_backup pg (text_to_cstring labelfile) false
           (ThisTimeLineID p) (xlog p))
        (ThisTimeLineID p)
    else Error ERRCODE_INSUFFICIENT_PRIVILEGE p.
Proof.
  unfold pgespresso_stop_backup.
  unfold mbind at 1, fmgr_bind at 1. rewrite check_superuser_eq.
  destruct (superuser pg (xlog p)); [|reflexivity].
  unfold stop_reply, stop_timeline, segment_name.
  destruct (90300 <=? PG_VERSION_NUM cfg).
  - unfold mbind, fmgr_bind, call, mret, fmgr_ret; simpl.
    destruct (do_pg_stop_backup pg _ false _ (xlog p)) as [[sp tl] x|e x];
      reflexivity.
  - unfold mbind at 1 2, fmgr_bind at 1 2, call.
    destruct (do_pg_stop_backup pg _ false _ (xlog p)) as [[sp tl] x|e x];
      [|reflexivity].
    unfold mbind at 1, fmgr_bind at 1. rewrite update_ThisTimeLineID_eq.
    simpl xlog. destruct (Pg92.XLByteToPrevSeg cfg sp) as [lg sg].
    reflexivity.
Qed.

Lemma pgespresso_abort_backup_eq (p : process X) :
  pgespresso_abort_backup pg p =
    if superuser pg (xlog p) then
      match do_pg_abort_backup pg (xlog p) with
      | Ok _ x => Return tt (Build_process (ThisTimeLineID p) x)
      | Err e x => Error e (Build_process (ThisTimeLineID p) x)
      end
    else Error ERRCODE_INSUFFICIENT_PRIVILEGE p.
Proof.
  unfold pgespresso_abort_backup.
  unfold mbind at 1, fmgr_bind at 1. rewrite check_superuser_eq.
  destruct (superuser pg (xlog p)); [|reflexivity].
  unfold mbind, fmgr_bind, call_void, mret, fmgr_ret.
  now destruct (do_pg_abort_backup pg (xlog p)) as [[] x|e x].
Qed.

End Unfolding.

(** ** Authorization *)

(** C5: when the authorization check fails, each of start, stop and abort
    raises the insufficient-privilege error before anything else happens; the
    process and the backend are left exactly as they were. *)
Theorem unauthorized_call_changes_nothing {X : Type} (cfg : pg_config)
    (pg : backend X) (p : process X) (backupid labelfile : text) (fast : bool) :
  superuser pg (xlog p) = false ->
  pgespresso_start_backup pg backupid fast p
    = Error ERRCODE_INSUFFICIENT_PRIVILEGE p
  /\ pgespresso_stop_backup cfg pg labelfile p
    = Error ERRCODE_INSUFFICIENT_PRIVILEGE p
  /\ pgespresso_abort_backup pg p
    = Error ERRCODE_INSUFFICIENT_PRIVILEGE p.
Proof.
  intros Hsu.
  rewrite pgespresso_start_backup_eq, pgespresso_stop_backup_eq,
    pgespresso_abort_backup_eq, Hsu.
  auto.
Qed.

Lemma unauthorized_call_changes_nothing_witness :
  superuser Registry.pg (xlog Sample.intruder) = false
  /\ (pgespresso_start_backup Registry.pg Sample.nightly true Sample.intruder
       = Error ERRCODE_INSUFFICIENT_PRIVILEGE Sample.intruder
     /\ pgespresso_stop_backup Sample.pg_9_3 Registry.pg Sample.nightly_label
          Sample.intruder
       = Error ERRCODE_INSUFFICIENT_PRIVILEGE Sample.intruder
     /\ pgespresso_abort_backup Registry.pg Sample.intruder
       = Error ERRCODE_INSUFFICIENT_PRIVILEGE Sample.intruder).
Proof.
  split; [reflexivity|].
  apply (unauthorized_call_changes_nothing Sample.pg_9_3 Registry.pg
           Sample.intruder Sample.nightly Sample.nightly_label true).
  reflexivity.
Defined.

(** ** Abort *)

(** C4, as the claim states it, fails: abort raises the insufficient-privilege
    error for a caller that does not pass the authorization check. *)
Lemma abort_can_fail :
  pgespresso_abort_backup Registry.pg Sample.intruder
    = Error ERRCODE_INSUFFICIENT_PRIVILEGE Sample.intruder
  /\ ~ (exists p', pgespresso_abort_backup Registry.pg Sample.intruder
                    = Return tt p').
Proof.
  split; [reflexivity|].
  intros [p' H]. vm_compute in H. discriminate H.
Qed.

(** C4, amended: abort raises the insufficient-privilege error, and changes
    nothing, when the caller does not pass the authorization check.  For a
    caller that passes it, abort makes the one call [do_pg_abort_backup ()]
    and returns nothing, whatever the state, also when there is nothing to
    abort; the source does not catch what that call raises, so abort fails
    then, and only then, with the same error. *)
Theorem abort_fails_only_as_its_parts {X : Type} (pg : backend X)
    (p : process X) :
  (forall (e : sqlstate) (p' : process X),
     pgespresso_abort_backup pg p = Error e p'
     <-> (superuser pg (xlog p) = false
          /\ e = ERRCODE_INSUFFICIENT_PRIVILEGE /\ p' = p)
         \/ (superuser pg (xlog p) = true
             /\ exists x : X,
                  do_pg_abort_backup pg (xlog p) = Err e x
                  /\ p' = Build_process (ThisTimeLineID p) x))
  /\ (forall p' : process X,
        pgespresso_abort_backup pg p = Return tt p'
        <-> superuser pg (xlog p) = true
            /\ exists x : X,
                 do_pg_abort_backup pg (xlog p) = Ok tt x
                 /\ p' = Build_process (ThisTimeLineID p) x).
Proof.
  rewrite pgespresso_abort_backup_eq. split.
  - intros e p'. destruct (superuser pg (xlog p)).
    + destruct (do_pg_abort_backup pg (xlog p)) as [[] x|e0 x].
      * split; [discriminate|].
        intros [[H _]|[_ [y [H _]]]]; discriminate H.
      * split.
        -- intros H; injection H as <- <-. right. split; [reflexivity|].
           exists x. now split.
        -- intros [[H _]|[_ [y [H ->]]]]; [discriminate H|].
           now injection H as <- <-.
    + split.
      * intros H; injection H as <- <-. left. now repeat split.
      * intros [(_ & -> & ->)|[H _]]; [reflexivity|discriminate H].
  - intros p'. destruct (superuser pg (xlog p)).
    + destruct (do_pg_abort_backup pg (xlog p)) as [[] x|e0 x].
      * split.
        -- intros H; injection H as <-. split; [reflexivity|].
           exists x. now split.
        -- intros [_ [y [H ->]]]. now injection H as <-.
      * split; [discriminate|]. intros [_ [y [H _]]]; discriminate H.
    + split; [discriminate|]. intros [H _]; discriminate H.
Qed.

(** With the registry of the design document for a backend, whose abort has
    no error path, a superuser's abort completes in every state and does to
    the registry what [Registry.do_pg_abort_backup] does; when the calling
    context holds no open session that is nothing. *)
Lemma registry_abort_completes (this : TimeLineID) (e : Registry.engine) :
  Registry.authorized (Registry.ext e) = true ->
  pgespresso_abort_backup Registry.pg (Build_process this e)
  = Return tt (Build_process this (Registry.do_pg_abort_backup e)).
Proof.
  intros Hsu. rewrite pgespresso_abort_backup_eq.
  cbn [superuser xlog Registry.pg]. now rewrite Hsu.
Qed.

Lemma abort_fails_only_as_its_parts_witness :
  pgespresso_abort_backup Registry.pg Sample.operator
    = Return tt Sample.operator
  /\ pgespresso_abort_backup Registry.pg Sample.intruder
      = Error ERRCODE_INSUFFICIENT_PRIVILEGE Sample.intruder.
Proof.
  split.
  - apply (proj2 (abort_fails_only_as_its_parts Registry.pg Sample.operator)).
    split; [reflexivity|].
    exists (xlog Sample.operator). split; reflexivity.
  - apply (proj1 (abort_fails_only_as_its_parts Registry.pg Sample.intruder)).
    left. repeat split.
Defined.

(** ** Timelines *)

(** C6: the timeline a call resolves is the replay timeline, read from the
    backend at that moment, when the backend is in recovery, and the
    process's own current timeline otherwise.  Start resolves it before it
    calls the backend, which therefore sees it; before 9.3, stop resolves it
    once the backend has returned and names the file with it. *)
Theorem timeline_resolution {X : Type} (cfg : pg_config) (pg : backend X)
    (p : process X) (backupid labelfile : text) (fast : bool) :
  let tli := if RecoveryInProgress pg (xlog p)
             then snd (GetXLogReplayRecPtr pg (xlog p))
             else ThisTimeLineID p in
  update_ThisTimeLineID pg p = Return tt (Build_process tli (xlog p))
  /\ pgespresso_start_backup pg backupid fast p
      = (if superuser pg (xlog p) then
           start_reply
             (do_pg_start_backup pg (text_to_cstring backupid) fast tli (xlog p))
             tli
         else Error ERRCODE_INSUFFICIENT_PRIVILEGE p)
  /\ pgespresso_stop_backup cfg pg labelfile p
      = (if superuser pg (xlog p) then
           match do_pg_stop_backup pg (text_to_cstring labelfile) false
                   (ThisTimeLineID p) (xlog p) with
           | Ok (stoppoint, endtli) x =>
               if 90300 <=? PG_VERSION_NUM cfg then
                 Return (cstring_to_text (segment_name cfg stoppoint endtli))
                        (Build_process (ThisTimeLineID p) x)
               else
                 let tli' := if RecoveryInProgress pg x
                             then snd (GetXLogReplayRecPtr pg x)
                             else ThisTimeLineID p in
                 Return (cstring_to_text (segment_name cfg stoppoint tli'))
                        (Build_process tli' x)
           | Err e x => Error e (Build_process (ThisTimeLineID p) x)
           end
         else Error ERRCODE_INSUFFICIENT_PRIVILEGE p).
Proof.
  cbv zeta. split; [|split].
  - apply update_ThisTimeLineID_eq.
  - apply pgespresso_start_backup_eq.
  - rewrite pgespresso_stop_backup_eq.
    destruct (superuser pg (xlog p)); [|reflexivity].
    unfold stop_reply, stop_timeline, resolved_timeline.
    destruct (do_pg_stop_backup pg _ false _ (xlog p)) as [[sp tl] x|e x];
      [|reflexivity].
    now destruct (90300 <=? PG_VERSION_NUM cfg).
Qed.

(** C10, as the claim states it, fails: a caller that does not pass the
    authorization check leaves [ThisTimeLineID] as it was, although the
    backend is in recovery and replays another timeline; and on a pre-9.3
    build so does a stop that the backend refuses, here for a label text that
    names no open backup. *)
Lemma unauthorized_start_keeps_ThisTimeLineID :
  (RecoveryInProgress Registry.pg (xlog Sample.intruder) = true
   /\ snd (GetXLogReplayRecPtr Registry.pg (xlog Sample.intruder)) = 5
   /\ pgespresso_start_backup Registry.pg Sample.nightly true Sample.intruder
      = Error ERRCODE_INSUFFICIENT_PRIVILEGE Sample.intruder
   /\ ThisTimeLineID
        (state_of (pgespresso_start_backup Registry.pg Sample.nightly true
                     Sample.intruder)) = 0)
  /\ (RecoveryInProgress Registry.pg (xlog Sample.standby_operator) = true
      /\ snd (GetXLogReplayRecPtr Registry.pg (xlog Sample.standby_operator))
         = 5
      /\ pgespresso_stop_backup Sample.pg_9_2 Registry.pg Sample.nightly_label
           Sample.standby_operator
         = Error UnknownSession Sample.standby_operator
      /\ ThisTimeLineID
           (state_of (pgespresso_stop_backup Sample.pg_9_2 Registry.pg
                        Sample.nightly_label Sample.standby_operator)) = 0).
Proof. repeat split. Qed.

(** C10, amended: when the backend is in recovery and the caller passes the
    authorization check, start overwrites [ThisTimeLineID] with the replay
    timeline, and the global keeps that value when the call returns or
    raises.  Before 9.3, stop does the same once [do_pg_stop_backup] has
    returned, if the backend is in recovery at that moment, with the replay
    timeline of that moment.  In every other case (a caller that fails the
    authorization check, a backend that is not in recovery, a stop that the
    backend refuses, a stop from 9.3 on) the global is left as it was. *)
Theorem recovery_overwrites_ThisTimeLineID {X : Type} (cfg : pg_config)
    (pg : backend X) (p : process X) (backupid labelfile : text) (fast : bool) :
  ThisTimeLineID (state_of (pgespresso_start_backup pg backupid fast p))
    = (if superuser pg (xlog p) then
         if RecoveryInProgress pg (xlog p)
         then snd (GetXLogReplayRecPtr pg (xlog p))
         else ThisTimeLineID p
       else ThisTimeLineID p)
  /\ ThisTimeLineID (state_of (pgespresso_stop_backup cfg pg labelfile p))
    = (if superuser pg (xlog p) then
         match do_pg_stop_backup pg (text_to_cstring labelfile) false
                 (ThisTimeLineID p) (xlog p) with
         | Ok _ x =>
             if 90300 <=? PG_VERSION_NUM cfg then ThisTimeLineID p
             else if RecoveryInProgress pg x
                  then snd (GetXLogReplayRecPtr pg x)
                  else ThisTimeLineID p
         | Err _ _ => ThisTimeLineID p
         end
       else ThisTimeLineID p).
Proof.
  split.
  - rewrite pgespresso_start_backup_eq.
    destruct (superuser pg (xlog p)); [|reflexivity].
    unfold start_reply, resolved_timeline.
    now destruct (do_pg_start_backup pg _ fast _ (xlog p)) as [[sp lf] y|e y].
  - rewrite pgespresso_stop_backup_eq.
    destruct (superuser pg (xlog p)); [|reflexivity].
    unfold stop_reply, resolved_timeline.
    destruct (do_pg_stop_backup pg _ false _ (xlog p)) as [[sp tl] x|e x];
      [|reflexivity].
    now destruct (90300 <=? PG_VERSION_NUM cfg).
Qed.

Lemma recovery_overwrites_ThisTimeLineID_witness :
  (ThisTimeLineID Sample.standby_operator = 0
   /\ ThisTimeLineID
        (state_of (pgespresso_start_backup Registry.pg Sample.nightly true
                     Sample.standby_operator)) = 5)
  /\ (ThisTimeLineID (Sample.operator_at true 300) = 1
      /\ ThisTimeLineID
           (state_of (pgespresso_stop_backup Sample.pg_9_2 Registry.pg
                        Sample.nightly_label (Sample.operator_at true 300)))
         = 5).
Proof.
  split; (split; [reflexivity|]).
  - exact (eq_trans
             (proj1 (recovery_overwrites_ThisTimeLineID Sample.pg_9_2
                       Registry.pg Sample.standby_operator Sample.nightly
                       Sample.nightly_label true))
             eq_refl).
  - exact (eq_trans
             (proj2 (recovery_overwrites_ThisTimeLineID Sample.pg_9_2
                       Registry.pg (Sample.operator_at true 300)
                       Sample.nightly Sample.nightly_label true))
             eq_refl).
Defined.

(** ** Stop *)

(** C8: stop never asks the backend to wait for the archiver: whatever the
    backend would do when told to wait, even never return, changes nothing to
    what stop does, which is what the non-waiting call yields. *)
Theorem stop_does_not_wait_for_archive {X : Type} (cfg : pg_config)
    (pg : backend X)
    (waiting : cstring -> TimeLineID -> X -> outcome X (XLogRecPtr * TimeLineID))
    (labelfile : text) (p : process X) :
  pgespresso_stop_backup cfg (with_archive_wait pg waiting) labelfile p
    = pgespresso_stop_backup cfg pg labelfile p
  /\ pgespresso_stop_backup cfg pg labelfile p
    = (if superuser pg (xlog p) then
         stop_reply cfg pg
           (do_pg_stop_backup pg (text_to_cstring labelfile) false
              (ThisTimeLineID p) (xlog p))
           (ThisTimeLineID p)
       else Error ERRCODE_INSUFFICIENT_PRIVILEGE p).
Proof.
  split; [|apply pgespresso_stop_backup_eq].
  rewrite !pgespresso_stop_backup_eq. reflexivity.
Qed.

(** C2, as the claim states it, fails: what stop returns is one text, the
    segment file name, and the stop position cannot be read off it.  Two
    stops of the same backup, one when the log is at position 300 and one
    when it is at 301, return the same value. *)
Lemma stop_does_not_return_stop_position :
  (exists x300 x301 : Registry.engine,
     do_pg_stop_backup Registry.pg (text_to_cstring Sample.nightly_label)
       false 1 (xlog (Sample.operator_at false 300)) = Ok (300, 1) x300
     /\ do_pg_stop_backup Registry.pg (text_to_cstring Sample.nightly_label)
          false 1 (xlog (Sample.operator_at false 301)) = Ok (301, 1) x301
     /\ pgespresso_stop_backup Sample.pg_9_3 Registry.pg Sample.nightly_label
          (Sample.operator_at false 300)
        = Return (mk_text "000000010000000000000000") (Build_process 1 x300)
     /\ pgespresso_stop_backup Sample.pg_9_3 Registry.pg Sample.nightly_label
          (Sample.operator_at false 301)
        = Return (mk_text "000000010000000000000000") (Build_process 1 x301))
  /\ ~ (exists stop_position_of : text -> XLogRecPtr,
         forall (p : process Registry.engine) (t : text)
                (p' : process Registry.engine) (stoppoint : XLogRecPtr)
                (endtli : TimeLineID) (x : Registry.engine),
           pgespresso_stop_backup Sample.pg_9_3 Registry.pg
             Sample.nightly_label p = Return t p' ->
           do_pg_stop_backup Registry.pg
             (text_to_cstring Sample.nightly_label)
             false (ThisTimeLineID p) (xlog p) = Ok (stoppoint, endtli) x ->
           stop_position_of t = stoppoint).
Proof.
  pose (x300 := Registry.close_session 0 (xlog (Sample.operator_at false 300))).
  pose (x301 := Registry.close_session 0 (xlog (Sample.operator_at false 301))).
  assert (Hruns :
    do_pg_stop_backup Registry.pg (text_to_cstring Sample.nightly_label)
      false 1 (xlog (Sample.operator_at false 300)) = Ok (300, 1) x300
    /\ do_pg_stop_backup Registry.pg (text_to_cstring Sample.nightly_label)
         false 1 (xlog (Sample.operator_at false 301)) = Ok (301, 1) x301
    /\ pgespresso_stop_backup Sample.pg_9_3 Registry.pg Sample.nightly_label
         (Sample.operator_at false 300)
       = Return (mk_text "000000010000000000000000") (Build_process 1 x300)
    /\ pgespresso_stop_backup Sample.pg_9_3 Registry.pg Sample.nightly_label
         (Sample.operator_at false 301)
       = Return (mk_text "000000010000000000000000") (Build_process 1 x301))
    by (repeat split; vm_compute; reflexivity).
  split; [exists x300, x301; exact Hruns|].
  destruct Hruns as (Hb300 & Hb301 & Hs300 & Hs301).
  intros [f Hf].
  pose proof (Hf _ _ _ _ _ _ Hs300 Hb300) as H300.
  pose proof (Hf _ _ _ _ _ _ Hs301 Hb301) as H301.
  rewrite H300 in H301. discriminate H301.
Qed.

(** C2, amended: every successful stop returns the segment file name, and
    only that: the name computed from the stop position and the stop timeline
    that the backend's [do_pg_stop_backup] yielded. *)
Theorem stop_returns_segment_name {X : Type} (cfg : pg_config)
    (pg : backend X) (labelfile : text) (p p' : process X) (t : text) :
  pgespresso_stop_backup cfg pg labelfile p = Return t p' ->
  exists (stoppoint : XLogRecPtr) (endtli : TimeLineID),
    do_pg_stop_backup pg (text_to_cstring labelfile) false
      (ThisTimeLineID p) (xlog p) = Ok (stoppoint, endtli) (xlog p')
    /\ t = cstring_to_text
             (segment_name cfg stoppoint
                (stop_timeline cfg pg endtli
                   (Build_process (ThisTimeLineID p) (xlog p')))).
Proof.
  rewrite pgespresso_stop_backup_eq.
  destruct (superuser pg (xlog p)); [|discriminate].
  unfold stop_reply.
  destruct (do_pg_stop_backup pg _ false _ (xlog p)) as [[sp tl] x|e x];
    [|discriminate].
  intros H. exists sp, tl.
  destruct (90300 <=? PG_VERSION_NUM cfg); injection H as <- <-; auto.
Qed.

Lemma stop_returns_segment_name_witness :
  pgespresso_stop_backup Sample.pg_9_3 Registry.pg Sample.nightly_label
    (Sample.operator_at false 300)
  = Return (mk_text "000000010000000000000000")
      (Build_process 1
         (Registry.close_session 0 (xlog (Sample.operator_at false 300))))
  /\ exists (stoppoint : XLogRecPtr) (endtli : TimeLineID),
       do_pg_stop_backup Registry.pg (text_to_cstring Sample.nightly_label)
         false 1 (xlog (Sample.operator_at false 300))
       = Ok (stoppoint, endtli)
            (Registry.close_session 0 (xlog (Sample.operator_at false 300)))
       /\ mk_text "000000010000000000000000"
          = cstring_to_text
              (segment_name Sample.pg_9_3 stoppoint
                 (stop_timeline Sample.pg_9_3 Registry.pg endtli
                    (Build_process 1
                       (Registry.close_session 0
                          (xlog (Sample.operator_at false 300)))))).
Proof.
  split; [vm_compute; reflexivity|].
  apply (stop_returns_segment_name Sample.pg_9_3 Registry.pg
           Sample.nightly_label (Sample.operator_at false 300)
           (Build_process 1
              (Registry.close_session 0 (xlog (Sample.operator_at false 300))))
           (mk_text "000000010000000000000000")).
  vm_compute; reflexivity.
Defined.

(** ** The label text as the handle of a backup *)

(** C9: the interface has no session-id handle.  What start returns is the
    label text that the backend's [do_pg_start_backup] produced, as a [text];
    stop takes one [text], and when it is given the value start returned, the
    identifier it hands to [do_pg_stop_backup] is that very label text. *)
Theorem label_text_round_trip {X : Type} (cfg : pg_config) (pg : backend X)
    (backupid : text) (fast : bool) (p p' : process X) (t : text) :
  pgespresso_start_backup pg backupid fast p = Return t p' ->
  exists (startpoint : XLogRecPtr) (labelfile : cstring),
    do_pg_start_backup pg (text_to_cstring backupid) fast
      (resolved_timeline pg p) (xlog p) = Ok (startpoint, labelfile) (xlog p')
    /\ t = cstring_to_text labelfile
    /\ text_to_cstring t = labelfile
    /\ forall q : process X,
         pgespresso_stop_backup cfg pg t q
         = (if superuser pg (xlog q) then
              stop_reply cfg pg
                (do_pg_stop_backup pg labelfile false
                   (ThisTimeLineID q) (xlog q))
                (ThisTimeLineID q)
            else Error ERRCODE_INSUFFICIENT_PRIVILEGE q).
Proof.
  rewrite pgespresso_start_backup_eq.
  destruct (superuser pg (xlog p)); [|discriminate].
  unfold start_reply.
  destruct (do_pg_start_backup pg _ fast _ (xlog p)) as [[sp lf] x|e x];
    [|discriminate].
  intros H; injection H as <- <-.
  exists sp, lf. repeat split.
  intros q. now rewrite pgespresso_stop_backup_eq.
Qed.

Lemma label_text_round_trip_witness :
  pgespresso_start_backup Registry.pg Sample.nightly false Sample.operator
  = Return Sample.nightly_label Sample.after_nightly
  /\ exists (startpoint : XLogRecPtr) (labelfile : cstring),
       do_pg_start_backup Registry.pg (text_to_cstring Sample.nightly) false
         (resolved_timeline Registry.pg Sample.operator) (xlog Sample.operator)
       = Ok (startpoint, labelfile) (xlog Sample.after_nightly)
       /\ Sample.nightly_label = cstring_to_text labelfile
       /\ text_to_cstring Sample.nightly_label = labelfile
       /\ forall q : process Registry.engine,
            pgespresso_stop_backup Sample.pg_9_3 Registry.pg
              Sample.nightly_label q
            = (if superuser Registry.pg (xlog q) then
                 stop_reply Sample.pg_9_3 Registry.pg
                   (do_pg_stop_backup Registry.pg labelfile false
                      (ThisTimeLineID q) (xlog q))
                   (ThisTimeLineID q)
               else Error ERRCODE_INSUFFICIENT_PRIVILEGE q).
Proof.
  split; [vm_compute; reflexivity|].
  apply (label_text_round_trip Sample.pg_9_3 Registry.pg Sample.nightly false
           Sample.operator Sample.after_nightly Sample.nightly_label).
  vm_compute; reflexivity.
Defined.

(** ** The registry keeps its books *)

Section RegistryInvariant.
Import Registry Invariants.

Lemma size_delete_present (m : gmap nat BackupSession) (i : nat)
    (s : BackupSession) :
  m !! i = Some s -> size m = S (size (delete i m)).
Proof.
  intros Hi.
  rewrite <- (insert_id m i s) at 1 by exact Hi.
  rewrite <- insert_delete_eq.
  apply map_size_insert_None, lookup_delete_eq.
Qed.

Lemma session_of_labelfile_Some (m : gmap nat BackupSession)
    (labelfile : cstring) (s : BackupSession) :
  session_of_labelfile m labelfile = Some s ->
  format_label s = labelfile /\ exists i, m !! i = Some s.
Proof.
  unfold session_of_labelfile. intros H.
  apply fmap_Some in H as [[n s'] [Hfind ->]]. simpl.
  apply list_find_Some in Hfind as (Hl & HP & _).
  split; [exact HP|].
  apply list_elem_of_lookup_2, list_elem_of_fmap in Hl as [[i s''] [-> Hin]].
  exists i. now apply elem_of_map_to_list in Hin.
Qed.

Lemma with_ext_consistent (c : collaborators) (e : engine) :
  consistent e -> consistent (with_ext c e).
Proof. intros H; exact H. Qed.

Lemma open_session_consistent (s : BackupSession) (e : engine) :
  consistent e -> id s = next_id e -> consistent (open_session s e).
Proof.
  intros [[Hcount Hsw] Hids] Hid.
  assert (Hfresh : sessions (state e) !! id s = None).
  { destruct (sessions (state e) !! id s) as [s'|] eqn:E; [|reflexivity].
    apply Hids in E as [_ Hlt]. lia. }
  unfold consistent, refcount_matches, ids_allocated, open_session;
    cbn [state sessions force_full_page_writes_refcount
         full_page_write_enforcement next_id ext].
  split; [split|].
  - rewrite map_size_insert_None by exact Hfresh. lia.
  - destruct (Z.eqb_spec (force_full_page_writes_refcount (state e)) 0);
      [split; intros _; [lia|reflexivity]|].
    rewrite Hsw. split; intros _; [lia|assumption].
  - intros i s' Hi. destruct (decide (id s = i)) as [<-|Hne].
    + rewrite lookup_insert_eq in Hi. injection Hi as <-. split; [reflexivity|lia].
    + rewrite lookup_insert_ne in Hi by exact Hne.
      apply Hids in Hi as [? ?]. split; [assumption|lia].
Qed.

Lemma close_session_consistent (i : nat) (s : BackupSession) (e : engine) :
  consistent e -> sessions (state e) !! i = Some s ->
  consistent (close_session i e).
Proof.
  intros [[Hcount Hsw] Hids] Hi.
  pose proof (size_delete_present _ _ _ Hi) as Hsize.
  unfold consistent, refcount_matches, ids_allocated, close_session;
    cbn [state sessions force_full_page_writes_refcount
         full_page_write_enforcement next_id ext].
  split; [split|].
  - lia.
  - destruct (Z.eqb_spec (force_full_page_writes_refcount (state e) - 1) 0);
      [split; [discriminate|intros Hne; now destruct Hne]|].
    rewrite Hsw. split; intros _; [assumption|lia].
  - intros j s' Hj. apply lookup_delete_Some in Hj as [_ Hj].
    now apply Hids in Hj.
Qed.

Lemma do_pg_start_backup_consistent (backupidstr : cstring) (fast : bool)
    (this : TimeLineID) (e : engine) :
  consistent e ->
  match do_pg_start_backup backupidstr fast this e with
  | Ok _ e' => consistent e'
  | Err _ e' => e' = e
  end.
Proof.
  intros He. unfold do_pg_start_backup.
  destruct (collaborator_fails (ext e)); [reflexivity|].
  destruct (capture_start fast (ext e)) as [sp c].
  apply open_session_consistent; [apply with_ext_consistent, He|reflexivity].
Qed.

Lemma do_pg_stop_backup_consistent (labelfile : cstring) (wait : bool)
    (this : TimeLineID) (e : engine) :
  consistent e ->
  match do_pg_stop_backup labelfile wait this e with
  | Ok _ e' => consistent e'
  | Err _ e' => e' = e
  end.
Proof.
  intros He. unfold do_pg_stop_backup.
  destruct (session_of_labelfile (sessions (state e)) labelfile) as [s|] eqn:E;
    [|reflexivity].
  destruct (collaborator_fails (ext e)); [reflexivity|].
  apply session_of_labelfile_Some in E as [_ [i Hi]].
  destruct He as [Hc Hids]. destruct (Hids _ _ Hi) as [-> _].
  now apply (close_session_consistent i s); [split|].
Qed.

Lemma do_pg_abort_backup_consistent (e : engine) :
  consistent e -> consistent (do_pg_abort_backup e).
Proof.
  intros He. unfold do_pg_abort_backup.
  destruct (context_session (ext e)) as [i|]; [|exact He].
  destruct (sessions (state e) !! i) as [s|] eqn:Hi; [|exact He].
  now apply (close_session_consistent i s).
Qed.

(** Aborting when the calling context holds no open session changes
    nothing, and aborting twice is aborting once. *)
Lemma do_pg_abort_backup_nothing_to_abort (e : engine) :
  (forall i, context_session (ext e) = Some i ->
             sessions (state e) !! i = None) ->
  do_pg_abort_backup e = e.
Proof.
  intros H. unfold do_pg_abort_backup.
  destruct (context_session (ext e)) as [i|]; [|reflexivity].
  now rewrite (H i eq_refl).
Qed.

Lemma do_pg_abort_backup_idempotent (e : engine) :
  do_pg_abort_backup (do_pg_abort_backup e) = do_pg_abort_backup e.
Proof.
  unfold do_pg_abort_backup at 2 3.
  destruct (context_session (ext e)) as [i|] eqn:Hc;
    [|apply do_pg_abort_backup_nothing_to_abort; intros i Hi; congruence].
  destruct (sessions (state e) !! i) as [s|] eqn:Hi;
    [|apply do_pg_abort_backup_nothing_to_abort; intros j Hj; congruence].
  apply do_pg_abort_backup_nothing_to_abort.
  unfold close_session; cbn [ext state sessions].
  intros j Hj. rewrite Hc in Hj. injection Hj as <-. apply lookup_delete_eq.
Qed.

(** A label text that some open session carries is never unknown to stop. *)
Lemma session_of_labelfile_open (m : gmap nat BackupSession) (i : nat)
    (s : BackupSession) :
  m !! i = Some s -> is_Some (session_of_labelfile m (format_label s)).
Proof.
  intros Hi. unfold session_of_labelfile.
  apply fmap_is_Some.
  apply (list_find_elem_of _ _ s); [|reflexivity].
  apply list_elem_of_fmap. exists (i, s). split; [reflexivity|].
  now apply elem_of_map_to_list.
Qed.

End RegistryInvariant.

Lemma step_consistent (cfg : pg_config) (e : Registry.engine)
    (ev : Trace.event) :
  Invariants.consistent e -> Invariants.consistent (Trace.step cfg e ev).
Proof.
  intros He. unfold Trace.step, Trace.perform.
  set (p := Build_process _ _).
  assert (Hp : Invariants.consistent (xlog p)) by exact He.
  destruct (Trace.op ev) as [backupid fast|labelfile|].
  - unfold mbind, fmgr_bind. rewrite pgespresso_start_backup_eq.
    destruct (superuser Registry.pg (xlog p)); [|exact Hp].
    pose proof (do_pg_start_backup_consistent (text_to_cstring backupid) fast
                  (resolved_timeline Registry.pg p) (xlog p) Hp) as H.
    unfold start_reply.
    change (do_pg_start_backup Registry.pg) with Registry.do_pg_start_backup.
    destruct (Registry.do_pg_start_backup _ fast _ (xlog p))
      as [[sp lf] x|err x]; cbn; [exact H|now rewrite H].
  - unfold mbind, fmgr_bind. rewrite pgespresso_stop_backup_eq.
    destruct (superuser Registry.pg (xlog p)); [|exact Hp].
    pose proof (do_pg_stop_backup_consistent (text_to_cstring labelfile) false
                  (ThisTimeLineID p) (xlog p) Hp) as H.
    unfold stop_reply.
    change (do_pg_stop_backup Registry.pg) with Registry.do_pg_stop_backup.
    destruct (Registry.do_pg_stop_backup _ false _ (xlog p))
      as [[sp tl] x|err x]; [|cbn; now rewrite H].
    destruct (90300 <=? PG_VERSION_NUM cfg); exact H.
  - rewrite pgespresso_abort_backup_eq.
    destruct (superuser Registry.pg (xlog p)); [|exact Hp].
    cbn. now apply do_pg_abort_backup_consistent.
Qed.

Lemma init_consistent : Invariants.consistent Trace.init.
Proof.
  split; [split|].
  - reflexivity.
  - split; [discriminate|intros H; now destruct H].
  - intros i s H. unfold Trace.init in H; simpl in H.
    now rewrite lookup_empty in H.
Qed.

Lemma run_consistent (cfg : pg_config) (evs : list Trace.event)
    (e : Registry.engine) :
  Invariants.consistent e -> Invariants.consistent (Trace.run cfg evs e).
Proof.
  revert e. induction evs as [|ev evs IH]; intros e He; [exact He|].
  apply IH, step_consistent, He.
Qed.

(** C1: after any sequence of start, stop and abort calls, made by any
    callers and whatever the collaborators answer, and at every point between
    two calls of it, [force_full_page_writes_refcount] is the number of open
    sessions, and full-page-write enforcement is on exactly when that count
    is not zero. *)
Theorem refcount_counts_open_sessions (cfg : pg_config)
    (evs : list Trace.event) (n : nat) :
  let e := Trace.run cfg (take n evs) Trace.init in
  Registry.force_full_page_writes_refcount (Registry.state e)
    = Z.of_nat (size (Registry.sessions (Registry.state e)))
  /\ (Registry.full_page_write_enforcement e = true
      <-> Registry.force_full_page_writes_refcount (Registry.state e) <> 0).
Proof.
  cbv zeta.
  exact (proj1 (run_consistent cfg (take n evs) Trace.init init_consistent)).
Qed.

(** The scenario of the design document: the count goes 1, 2, 1, 0 and
    enforcement is released by the last call only. *)
Example scenario_books :
  map Sample.books_after [0; 1; 2; 3; 4]%nat
  = [(0, false); (1, true); (2, true); (1, true); (0, false)].
Proof. vm_compute. reflexivity. Qed.

(** ** Start *)

(** C3, as the claim states it, fails: what start returns is one text, the
    label, and no session id can be read off it.  Starting the backup
    "nightly" twice in the same second, the last checkpoint being the same,
    registers sessions 0 and 1 and returns the same text both times. *)
Lemma start_does_not_return_session_id :
  (exists (s0 s1 : Registry.BackupSession) (p'' : process Registry.engine),
     pgespresso_start_backup Registry.pg Sample.nightly false Sample.operator
       = Return Sample.nightly_label Sample.after_nightly
     /\ pgespresso_start_backup Registry.pg Sample.nightly false
          Sample.after_nightly
        = Return Sample.nightly_label p''
     /\ Registry.sessions (Registry.state (xlog Sample.after_nightly))
        = {[ 0%nat := s0 ]}
     /\ Registry.sessions (Registry.state (xlog p''))
        = <[ 1%nat := s1 ]> {[ 0%nat := s0 ]})
  /\ ~ (exists session_id_of : text -> nat,
         forall (p p' : process Registry.engine) (t : text),
           pgespresso_start_backup Registry.pg Sample.nightly false p
             = Return t p' ->
           Registry.sessions (Registry.state (xlog p)) !! session_id_of t
             = None
           /\ is_Some (Registry.sessions (Registry.state (xlog p'))
                         !! session_id_of t)).
Proof.
  split.
  - eexists _, _, _. repeat split; vm_compute; reflexivity.
  - intros [f Hf].
    destruct (Hf Sample.operator Sample.after_nightly Sample.nightly_label)
      as [_ [s Hs]]; [vm_compute; reflexivity|].
    destruct (Hf Sample.after_nightly
                (state_of (pgespresso_start_backup Registry.pg Sample.nightly
                             false Sample.after_nightly))
                Sample.nightly_label) as [Hnone _]; [vm_compute; reflexivity|].
    rewrite Hs in Hnone. discriminate Hnone.
Qed.

(** C3, amended: every successful start returns the generated label text,
    and only that; the session it registers has an id that was not in the
    registry before the call and is in it, open, right after, the other
    sessions being untouched. *)
Theorem start_opens_fresh_session (cfg : pg_config) (evs : list Trace.event)
    (c : Registry.collaborators) (this : TimeLineID)
    (backupid : text) (fast : bool) (t : text)
    (p' : process Registry.engine) :
  let e := Registry.with_ext c (Trace.run cfg evs Trace.init) in
  pgespresso_start_backup Registry.pg backupid fast (Build_process this e)
    = Return t p' ->
  exists s : Registry.BackupSession,
    t = cstring_to_text (Registry.format_label s)
    /\ Registry.label s = text_to_cstring backupid
    /\ Registry.sessions (Registry.state e) !! Registry.id s = None
    /\ Registry.sessions (Registry.state (xlog p')) !! Registry.id s = Some s
    /\ Registry.sessions (Registry.state (xlog p'))
       = <[Registry.id s := s]> (Registry.sessions (Registry.state e)).
Proof.
  cbv zeta. set (e := Registry.with_ext c _).
  assert (He : Invariants.consistent e)
    by apply with_ext_consistent, run_consistent, init_consistent.
  rewrite pgespresso_start_backup_eq.
  destruct (superuser Registry.pg _); [|discriminate].
  unfold start_reply.
  change (do_pg_start_backup Registry.pg) with Registry.do_pg_start_backup.
  unfold Registry.do_pg_start_backup. cbn [xlog].
  destruct (Registry.collaborator_fails (Registry.ext e)); [discriminate|].
  destruct (Registry.capture_start fast (Registry.ext e)) as [sp c'].
  intros H; injection H as <- <-.
  eexists. split; [reflexivity|]. split; [reflexivity|].
  cbn [xlog Registry.open_session Registry.state Registry.sessions
       Registry.with_ext Registry.id].
  split; [|split; [apply lookup_insert_eq|reflexivity]].
  destruct (Registry.sessions (Registry.state e) !! Registry.next_id e)
    as [s'|] eqn:E; [|exact E].
  apply (proj2 He) in E as [_ Hlt]. lia.
Qed.

Lemma start_opens_fresh_session_witness :
  pgespresso_start_backup Registry.pg Sample.nightly false Sample.operator
    = Return Sample.nightly_label Sample.after_nightly
  /\ exists s : Registry.BackupSession,
       Sample.nightly_label = cstring_to_text (Registry.format_label s)
       /\ Registry.label s = text_to_cstring Sample.nightly
       /\ Registry.sessions (Registry.state (xlog Sample.operator))
            !! Registry.id s = None
       /\ Registry.sessions (Registry.state Sample.one_open)
            !! Registry.id s = Some s
       /\ Registry.sessions (Registry.state Sample.one_open)
          = <[Registry.id s := s]>
              (Registry.sessions (Registry.state (xlog Sample.operator))).
Proof.
  split; [vm_compute; reflexivity|].
  apply (start_opens_fresh_session Sample.pg_9_3 []
           (Sample.answers_at true false 150) 1 Sample.nightly false
           Sample.nightly_label Sample.after_nightly).
  vm_compute; reflexivity.
Defined.

(** ** Segment file names *)

Lemma string_length_append (a b : string) :
  String.length (a +:+ b) = (String.length a + String.length b)%nat.
Proof. induction a as [|c a IH]; simpl; [reflexivity|now rewrite IH]. Qed.

Lemma hex_fixed_length (w : nat) (x : Z) : String.length (hex_fixed w x) = w.
Proof. induction w as [|w IH]; simpl; [reflexivity|now rewrite IH]. Qed.

Lemma file_name_length (a b c : Z) :
  String.length (fmt_08X a +:+ fmt_08X b +:+ fmt_08X c) = 24%nat.
Proof.
  unfold fmt_08X. now rewrite !string_length_append, !hex_fixed_length.
Qed.

Lemma hex_digit_inj (c d : Z) :
  0 <= c < 16 -> 0 <= d < 16 -> hex_digit c = hex_digit d -> c = d.
Proof.
  intros Hc Hd.
  assert (Hcs : c = 0 \/ c = 1 \/ c = 2 \/ c = 3 \/ c = 4 \/ c = 5 \/ c = 6
                \/ c = 7 \/ c = 8 \/ c = 9 \/ c = 10 \/ c = 11 \/ c = 12
                \/ c = 13 \/ c = 14 \/ c = 15) by lia.
  assert (Hds : d = 0 \/ d = 1 \/ d = 2 \/ d = 3 \/ d = 4 \/ d = 5 \/ d = 6
                \/ d = 7 \/ d = 8 \/ d = 9 \/ d = 10 \/ d = 11 \/ d = 12
                \/ d = 13 \/ d = 14 \/ d = 15) by lia.
  repeat (destruct Hcs as [->|Hcs]);
    try subst c;
    repeat (destruct Hds as [->|Hds]); try subst d;
    (reflexivity || (intros H; discriminate H)).
Qed.

Lemma hex_fixed_inj (w : nat) (x y : Z) :
  hex_fixed w x = hex_fixed w y ->
  x mod 2 ^ (4 * Z.of_nat w) = y mod 2 ^ (4 * Z.of_nat w).
Proof.
  induction w as [|w IH]; intros H.
  - now rewrite !Z.mod_1_r.
  - simpl in H. injection H as Hd Ht.
    specialize (IH Ht).
    change 15 with (Z.ones 4) in Hd.
    rewrite !Z.land_ones, !Z.shiftr_div_pow2 in Hd by lia.
    apply hex_digit_inj in Hd; try (apply Z.mod_pos_bound; lia).
    replace (4 * Z.of_nat (S w)) with (4 * Z.of_nat w + 4) by lia.
    rewrite Z.pow_add_r by lia.
    assert (Hp : 0 < 2 ^ (4 * Z.of_nat w)) by (apply Z.pow_pos_nonneg; lia).
    rewrite !Z.rem_mul_r by lia.
    now rewrite IH, Hd.
Qed.

Lemma fmt_08X_inj (x y : Z) :
  0 <= x < 2 ^ 32 -> 0 <= y < 2 ^ 32 -> fmt_08X x = fmt_08X y -> x = y.
Proof.
  intros Hx Hy H. apply hex_fixed_inj in H.
  change (2 ^ (4 * Z.of_nat 8)) with (2 ^ 32) in H.
  now rewrite !Z.mod_small in H.
Qed.

Lemma string_append_inj (a a' b b' : string) :
  String.length a = String.length a' ->
  a +:+ b = a' +:+ b' -> a = a' /\ b = b'.
Proof.
  revert a'. induction a as [|c a IH]; intros [|c' a'] Hlen H;
    try discriminate Hlen.
  - now split.
  - simpl in H. injection H as -> H. injection Hlen as Hlen.
    destruct (IH a' Hlen H) as [-> ->]. now split.
Qed.

Lemma file_name_inj (a b c a' b' c' : Z) :
  0 <= a < 2 ^ 32 -> 0 <= b < 2 ^ 32 -> 0 <= c < 2 ^ 32 ->
  0 <= a' < 2 ^ 32 -> 0 <= b' < 2 ^ 32 -> 0 <= c' < 2 ^ 32 ->
  fmt_08X a +:+ fmt_08X b +:+ fmt_08X c
    = fmt_08X a' +:+ fmt_08X b' +:+ fmt_08X c' ->
  a = a' /\ b = b' /\ c = c'.
Proof.
  intros Ha Hb Hc Ha' Hb' Hc' H.
  apply string_append_inj in H as [H1 H];
    [|unfold fmt_08X; now rewrite !hex_fixed_length].
  apply string_append_inj in H as [H2 H3];
    [|unfold fmt_08X; now rewrite !hex_fixed_length].
  repeat split; now apply fmt_08X_inj.
Qed.

Lemma prev_seg_9_3 (cfg : pg_config) (position : XLogRecPtr) :
  valid_config cfg -> 0 < position < 2 ^ 64 ->
  let S := XLOG_SEG_SIZE cfg in
  let n := Pg93.XLByteToPrevSeg cfg position in
  let log := uint32 (n / Pg93.XLogSegmentsPerXLogId cfg) in
  let seg := uint32 (n mod Pg93.XLogSegmentsPerXLogId cfg) in
  0 <= log < 2 ^ 32 /\ 0 <= seg < 2 ^ 32 / S
  /\ log * 2 ^ 32 + seg * S < position <= log * 2 ^ 32 + seg * S + S.
Proof.
  intros [HS Hdiv] Hpos. cbv zeta.
  unfold Pg93.XLByteToPrevSeg, Pg93.XLogSegmentsPerXLogId, XLogSegSize,
    uint32, uint64.
  change (2 ^ 32) with 4294967296 in *.
  change (2 ^ 64) with 18446744073709551616 in *.
  set (S := XLOG_SEG_SIZE cfg) in *.
  rewrite (Z.mod_small S) by lia.
  rewrite (Z.mod_small (position - 1)) by lia.
  set (M := 4294967296 / S).
  assert (HM : 4294967296 = S * M).
  { unfold M. pose proof (Z.div_mod 4294967296 S ltac:(lia)). lia. }
  assert (HMpos : 0 < M) by nia.
  set (n := (position - 1) / S).
  assert (Hn : S * n <= position - 1 < S * n + S).
  { unfold n. pose proof (Z.div_mod (position - 1) S ltac:(lia)).
    pose proof (Z.mod_pos_bound (position - 1) S ltac:(lia)). lia. }
  assert (Hn0 : 0 <= n) by nia.
  pose proof (Z.div_mod n M ltac:(lia)) as Hdm.
  pose proof (Z.mod_pos_bound n M HMpos) as Hmb.
  assert (Hq0 : 0 <= n / M) by (apply Z.div_pos; lia).
  assert (HnM : n < 4294967296 * M) by nia.
  assert (Hq : n / M < 4294967296) by (apply Z.div_lt_upper_bound; lia).
  rewrite (Z.mod_small (n / M)) by lia.
  rewrite (Z.mod_small (n mod M)) by nia.
  repeat split; try lia; nia.
Qed.

Lemma prev_seg_9_2 (cfg : pg_config) (position : XLogRecPtr) :
  valid_config cfg -> 0 < position < 2 ^ 64 -> xrecoff position <> 0 ->
  let S := XLOG_SEG_SIZE cfg in
  let log := fst (Pg92.XLByteToPrevSeg cfg position) in
  let seg := snd (Pg92.XLByteToPrevSeg cfg position) in
  0 <= log < 2 ^ 32 /\ 0 <= seg < 2 ^ 32 / S
  /\ log * 2 ^ 32 + seg * S < position <= log * 2 ^ 32 + seg * S + S.
Proof.
  intros [HS Hdiv] Hpos. cbv zeta.
  unfold Pg92.XLByteToPrevSeg, XLogSegSize, uint32, xlogid, xrecoff.
  cbn [fst snd].
  rewrite Z.shiftr_div_pow2, Z.land_ones by lia.
  change (2 ^ 32) with 4294967296 in *.
  change (2 ^ 64) with 18446744073709551616 in *.
  set (S := XLOG_SEG_SIZE cfg) in *.
  intros Hr.
  rewrite (Z.mod_small S) by lia.
  pose proof (Z.div_mod position 4294967296 ltac:(lia)) as Hdm.
  pose proof (Z.mod_pos_bound position 4294967296 ltac:(lia)) as Hmb.
  set (l := position / 4294967296) in *.
  set (r := position mod 4294967296) in *.
  rewrite (Z.mod_small (r - 1)) by lia.
  set (M := 4294967296 / S).
  assert (HM : 4294967296 = S * M).
  { unfold M. pose proof (Z.div_mod 4294967296 S ltac:(lia)). lia. }
  set (g := (r - 1) / S).
  assert (Hg : S * g <= r - 1 < S * g + S).
  { unfold g. pose proof (Z.div_mod (r - 1) S ltac:(lia)).
    pose proof (Z.mod_pos_bound (r - 1) S ltac:(lia)). lia. }
  repeat split; try lia; nia.
Qed.

(** C7, as the claim states it, fails: not every position gets the segment
    before it.  On a pre-9.3 build the position 4294967296, where [xrecoff]
    is zero, sits on a segment boundary and gets the name of segment 255 of
    log file 1, which lies after it (the preceding segment is segment 255 of
    log file 0); and position 0, which has no preceding segment, gets the
    name of the last segment there is. *)
Lemma segment_name_wraps_around :
  (segment_name Sample.pg_9_2 4294967296 1
     = "0000000100000001000000FF"%string
   /\ ~ (exists log seg : Z,
          0 <= log < 2 ^ 32 /\ 0 <= seg < 2 ^ 32
          /\ segment_name Sample.pg_9_2 4294967296 1
             = fmt_08X 1 +:+ fmt_08X log +:+ fmt_08X seg
          /\ log * 2 ^ 32 + seg * XLOG_SEG_SIZE Sample.pg_9_2 < 4294967296
               <= log * 2 ^ 32 + seg * XLOG_SEG_SIZE Sample.pg_9_2
                  + XLOG_SEG_SIZE Sample.pg_9_2))
  /\ (segment_name Sample.pg_9_3 0 1 = "00000001FFFFFFFF000000FF"%string
      /\ ~ (exists log seg : Z,
             0 <= log < 2 ^ 32 /\ 0 <= seg < 2 ^ 32
             /\ segment_name Sample.pg_9_3 0 1
                = fmt_08X 1 +:+ fmt_08X log +:+ fmt_08X seg
             /\ log * 2 ^ 32 + seg * XLOG_SEG_SIZE Sample.pg_9_3 < 0
                  <= log * 2 ^ 32 + seg * XLOG_SEG_SIZE Sample.pg_9_3
                     + XLOG_SEG_SIZE Sample.pg_9_3)).
Proof.
  split; (split; [vm_compute; reflexivity|]).
  - intros (log & seg & Hl & Hs & Hname & Hb).
    change (segment_name Sample.pg_9_2 4294967296 1)
      with (fmt_08X 1 +:+ fmt_08X 1 +:+ fmt_08X 255) in Hname.
    apply file_name_inj in Hname as (_ & <- & <-);
      try (split; [discriminate|reflexivity]); try assumption.
    change (XLOG_SEG_SIZE Sample.pg_9_2) with 16777216 in Hb.
    change (2 ^ 32) with 4294967296 in Hb. lia.
  - intros (log & seg & Hl & Hs & _ & Hb).
    change (XLOG_SEG_SIZE Sample.pg_9_3) with 16777216 in Hb.
    change (2 ^ 32) with 4294967296 in *. lia.
Qed.

(** C7, amended: for every valid position, that is one that is not zero and,
    before 9.3, whose [xrecoff] is not zero, and every timeline, the encoder
    names the segment that starts at the last boundary strictly before the
    position,
    so that a position sitting exactly on a boundary gets the preceding
    segment; the name is the timeline followed by the segment, as three
    eight-digit hexadecimal fields, always 24 characters, and no other
    timeline or segment has that name. *)
Theorem segment_name_is_previous_segment (cfg : pg_config)
    (position : XLogRecPtr) (timeline : TimeLineID) :
  valid_config cfg -> valid_position cfg position ->
  exists log seg : Z,
    segment_name cfg position timeline
      = fmt_08X timeline +:+ fmt_08X log +:+ fmt_08X seg
    /\ String.length (segment_name cfg position timeline) = 24%nat
    /\ 0 <= log < 2 ^ 32
    /\ 0 <= seg < 2 ^ 32 / XLOG_SEG_SIZE cfg
    /\ log * 2 ^ 32 + seg * XLOG_SEG_SIZE cfg < position
         <= log * 2 ^ 32 + seg * XLOG_SEG_SIZE cfg + XLOG_SEG_SIZE cfg
    /\ (position mod XLOG_SEG_SIZE cfg = 0 ->
        log * 2 ^ 32 + seg * XLOG_SEG_SIZE cfg
          = position - XLOG_SEG_SIZE cfg)
    /\ (forall timeline' log' seg' : Z,
          0 <= timeline < 2 ^ 32 -> 0 <= timeline' < 2 ^ 32 ->
          0 <= log' < 2 ^ 32 -> 0 <= seg' < 2 ^ 32 ->
          segment_name cfg position timeline
            = fmt_08X timeline' +:+ fmt_08X log' +:+ fmt_08X seg' ->
          timeline' = timeline /\ log' = log /\ seg' = seg).
Proof.
  intros Hcfg [Hpos Hoff].
  assert (Hbnd : forall l g,
             l * 2 ^ 32 + g * XLOG_SEG_SIZE cfg < position
               <= l * 2 ^ 32 + g * XLOG_SEG_SIZE cfg + XLOG_SEG_SIZE cfg ->
             position mod XLOG_SEG_SIZE cfg = 0 ->
             l * 2 ^ 32 + g * XLOG_SEG_SIZE cfg
               = position - XLOG_SEG_SIZE cfg).
  { intros l g Hb Hm. destruct Hcfg as [HS Hdiv].
    change (2 ^ 32) with 4294967296 in *.
    pose proof (Z.div_mod position (XLOG_SEG_SIZE cfg) ltac:(lia)) as Hd.
    pose proof (Z.div_mod 4294967296 (XLOG_SEG_SIZE cfg) ltac:(lia)) as HM.
    rewrite Hm in Hd. rewrite Hdiv in HM.
    set (S := XLOG_SEG_SIZE cfg) in *.
    set (q := position / S) in *. set (M := 4294967296 / S) in *.
    assert (HlM : l * 4294967296 = S * (l * M)) by (rewrite HM at 1; ring).
    assert (H1 : S * (l * M + g) < S * q) by lia.
    assert (H2 : S * q < S * (l * M + g + 2)) by lia.
    apply Z.mul_lt_mono_pos_l in H1; [|lia].
    apply Z.mul_lt_mono_pos_l in H2; [|lia].
    assert (Hq : q = l * M + g + 1) by lia.
    rewrite Hd, Hq. lia. }
  assert (Hsegs : 2 ^ 32 / XLOG_SEG_SIZE cfg <= 2 ^ 32).
  { destruct Hcfg as [HS _]. apply Z.div_le_upper_bound; nia. }
  assert (Hall : forall log seg : Z,
             segment_name cfg position timeline
               = fmt_08X timeline +:+ fmt_08X log +:+ fmt_08X seg ->
             0 <= log < 2 ^ 32 /\ 0 <= seg < 2 ^ 32 / XLOG_SEG_SIZE cfg
             /\ log * 2 ^ 32 + seg * XLOG_SEG_SIZE cfg < position
                  <= log * 2 ^ 32 + seg * XLOG_SEG_SIZE cfg
                     + XLOG_SEG_SIZE cfg ->
             exists log seg : Z,
               segment_name cfg position timeline
                 = fmt_08X timeline +:+ fmt_08X log +:+ fmt_08X seg
               /\ String.length (segment_name cfg position timeline) = 24%nat
               /\ 0 <= log < 2 ^ 32
               /\ 0 <= seg < 2 ^ 32 / XLOG_SEG_SIZE cfg
               /\ log * 2 ^ 32 + seg * XLOG_SEG_SIZE cfg < position
                    <= log * 2 ^ 32 + seg * XLOG_SEG_SIZE cfg
                       + XLOG_SEG_SIZE cfg
               /\ (position mod XLOG_SEG_SIZE cfg = 0 ->
                   log * 2 ^ 32 + seg * XLOG_SEG_SIZE cfg
                     = position - XLOG_SEG_SIZE cfg)
               /\ (forall timeline' log' seg' : Z,
                     0 <= timeline < 2 ^ 32 -> 0 <= timeline' < 2 ^ 32 ->
                     0 <= log' < 2 ^ 32 -> 0 <= seg' < 2 ^ 32 ->
                     segment_name cfg position timeline
                       = fmt_08X timeline' +:+ fmt_08X log' +:+ fmt_08X seg' ->
                     timeline' = timeline /\ log' = log /\ seg' = seg)).
  { intros log seg Hname (Hl & Hs & Hb). exists log, seg.
    split; [exact Hname|].
    split; [rewrite Hname; apply file_name_length|].
    split; [exact Hl|]. split; [exact Hs|]. split; [exact Hb|].
    split; [now apply Hbnd|].
    intros tl' log' seg' Htl Htl' Hl' Hs' Heq.
    rewrite Hname in Heq.
    apply file_name_inj in Heq as (-> & -> & ->); try assumption; [auto|lia]. }
  unfold segment_name in *.
  destruct (Z.leb_spec 90300 (PG_VERSION_NUM cfg)) as [Hv|Hv].
  - apply (Hall _ _ eq_refl), (prev_seg_9_3 cfg position Hcfg Hpos).
  - pose proof (prev_seg_9_2 cfg position Hcfg Hpos (Hoff Hv)) as H.
    unfold Pg92.XLByteToPrevSeg in *. cbn [fst snd] in H.
    apply (Hall _ _ eq_refl), H.
Qed.

Lemma segment_name_is_previous_segment_witness :
  (valid_config Sample.pg_9_3 /\ valid_position Sample.pg_9_3 33554432)
  /\ segment_name Sample.pg_9_3 33554432 1 = "000000010000000000000001"%string
  /\ exists log seg : Z,
       segment_name Sample.pg_9_3 33554432 1
         = fmt_08X 1 +:+ fmt_08X log +:+ fmt_08X seg
       /\ String.length (segment_name Sample.pg_9_3 33554432 1) = 24%nat
       /\ 0 <= log < 2 ^ 32
       /\ 0 <= seg < 2 ^ 32 / XLOG_SEG_SIZE Sample.pg_9_3
       /\ log * 2 ^ 32 + seg * XLOG_SEG_SIZE Sample.pg_9_3 < 33554432
            <= log * 2 ^ 32 + seg * XLOG_SEG_SIZE Sample.pg_9_3
               + XLOG_SEG_SIZE Sample.pg_9_3
       /\ (33554432 mod XLOG_SEG_SIZE Sample.pg_9_3 = 0 ->
           log * 2 ^ 32 + seg * XLOG_SEG_SIZE Sample.pg_9_3
             = 33554432 - XLOG_SEG_SIZE Sample.pg_9_3)
       /\ (forall timeline' log' seg' : Z,
             0 <= 1 < 2 ^ 32 -> 0 <= timeline' < 2 ^ 32 ->
             0 <= log' < 2 ^ 32 -> 0 <= seg' < 2 ^ 32 ->
             segment_name Sample.pg_9_3 33554432 1
               = fmt_08X timeline' +:+ fmt_08X log' +:+ fmt_08X seg' ->
             timeline' = 1 /\ log' = log /\ seg' = seg).
Proof.
  assert (Hcfg : valid_config Sample.pg_9_3)
    by (split; [split; reflexivity|reflexivity]).
  assert (Hpos : valid_position Sample.pg_9_3 33554432)
    by (split; [split; reflexivity|intros H; discriminate H]).
  split; [split; assumption|].
  split; [reflexivity|].
  apply (segment_name_is_previous_segment Sample.pg_9_3 33554432 1 Hcfg Hpos).
Defined.

(** * Further properties of the entry points *)

(** ** How start and stop fail *)

(** X1: start raises in two cases only.  Either the caller is not a
    superuser, the error is the insufficient-privilege one and nothing has
    changed; or [do_pg_start_backup] raised, and start raises the same error,
    the backend being as that call left it and [ThisTimeLineID] already
    holding the resolved timeline. *)
Theorem start_fails_iff {X : Type} (pg : backend X) (backupid : text)
    (fast : bool) (p p' : process X) (e : sqlstate) :
  pgespresso_start_backup pg backupid fast p = Error e p'
  <-> (superuser pg (xlog p) = false
       /\ e = ERRCODE_INSUFFICIENT_PRIVILEGE /\ p' = p)
      \/ (superuser pg (xlog p) = true
          /\ exists x : X,
               do_pg_start_backup pg (text_to_cstring backupid) fast
                 (resolved_timeline pg p) (xlog p) = Err e x
               /\ p' = Build_process (resolved_timeline pg p) x).
Proof.
  rewrite pgespresso_start_backup_eq. unfold start_reply.
  destruct (superuser pg (xlog p)).
  - destruct (do_pg_start_backup pg _ fast _ (xlog p)) as [[sp lf] x|e0 x].
    + split; [discriminate|].
      intros [[H _]|[_ [y [H _]]]]; discriminate H.
    + split.
      * intros H; injection H as <- <-. right. split; [reflexivity|].
        exists x. now split.
      * intros [[H _]|[_ [y [H ->]]]]; [discriminate H|].
        now injection H as <- <-.
  - split.
    + intros H; injection H as <- <-. left. now repeat split.
    + intros [(_ & -> & ->)|[H _]]; [reflexivity|discriminate H].
Qed.

(** X2: stop raises in two cases only: the insufficient-privilege error for
    a caller that is not a superuser, nothing having changed, or the error
    that [do_pg_stop_backup] raised.  In both, in every build,
    [ThisTimeLineID] is what it was: the pre-9.3 update comes after the
    backend call and is not reached. *)
Theorem stop_fails_iff {X : Type} (cfg : pg_config) (pg : backend X)
    (labelfile : text) (p p' : process X) (e : sqlstate) :
  pgespresso_stop_backup cfg pg labelfile p = Error e p'
  <-> (superuser pg (xlog p) = false
       /\ e = ERRCODE_INSUFFICIENT_PRIVILEGE /\ p' = p)
      \/ (superuser pg (xlog p) = true
          /\ exists x : X,
               do_pg_stop_backup pg (text_to_cstring labelfile) false
                 (ThisTimeLineID p) (xlog p) = Err e x
               /\ p' = Build_process (ThisTimeLineID p) x).
Proof.
  rewrite pgespresso_stop_backup_eq. unfold stop_reply.
  destruct (superuser pg (xlog p)).
  - destruct (do_pg_stop_backup pg _ false _ (xlog p)) as [[sp tl] x|e0 x].
    + split; [discriminate|].
      intros [[H _]|[_ [y [H _]]]]; discriminate H.
    + split.
      * intros H; injection H as <- <-. right. split; [reflexivity|].
        exists x. now split.
      * intros [[H _]|[_ [y [H ->]]]]; [discriminate H|].
        now injection H as <- <-.
  - split.
    + intros H; injection H as <- <-. left. now repeat split.
    + intros [(_ & -> & ->)|[H _]]; [reflexivity|discriminate H].
Qed.

(** ** What stop returns *)

(** X3: whatever the backend, the build, the stop position and the timeline,
    the text that a successful stop returns has exactly 24 characters. *)
Theorem stop_reply_has_24_characters {X : Type} (cfg : pg_config)
    (pg : backend X) (labelfile : text) (p p' : process X) (t : text) :
  pgespresso_stop_backup cfg pg labelfile p = Return t p' ->
  String.length (text_to_cstring t) = 24%nat.
Proof.
  rewrite pgespresso_stop_backup_eq.
  destruct (superuser pg (xlog p)); [|discriminate].
  unfold stop_reply, segment_name.
  destruct (do_pg_stop_backup pg _ false _ (xlog p)) as [[sp tl] x|e x];
    [|discriminate].
  destruct (90300 <=? PG_VERSION_NUM cfg); intros H; injection H as <- _;
    apply file_name_length.
Qed.

Lemma stop_reply_has_24_characters_witness :
  pgespresso_stop_backup Sample.pg_9_2 Registry.pg Sample.nightly_label
    (Sample.operator_at true 300)
  = Return (mk_text "000000050000000000000000")
      (Build_process 5
         (Registry.close_session 0 (xlog (Sample.operator_at true 300))))
  /\ String.length (text_to_cstring (mk_text "000000050000000000000000"))
     = 24%nat.
Proof.
  split; [vm_compute; reflexivity|].
  apply (stop_reply_has_24_characters Sample.pg_9_2 Registry.pg
           Sample.nightly_label (Sample.operator_at true 300)
           (Build_process 5
              (Registry.close_session 0 (xlog (Sample.operator_at true 300))))
           (mk_text "000000050000000000000000")).
  vm_compute; reflexivity.
Defined.

(** ** Which timeline stop uses *)

(** X4: from 9.3 on, stop neither asks the backend whether it is in recovery
    nor reads the replay timeline, and it never assigns [ThisTimeLineID]:
    changing what the backend says about recovery changes nothing to the
    call, and the global is afterwards what it was, error or not. *)
Theorem stop_9_3_ignores_recovery {X : Type} (cfg : pg_config)
    (pg : backend X) (in_recovery : X -> bool)
    (replay : X -> XLogRecPtr * TimeLineID) (labelfile : text)
    (p : process X) :
  90300 <= PG_VERSION_NUM cfg ->
  pgespresso_stop_backup cfg (with_recovery_status pg in_recovery replay)
    labelfile p
  = pgespresso_stop_backup cfg pg labelfile p
  /\ ThisTimeLineID (state_of (pgespresso_stop_backup cfg pg labelfile p))
     = ThisTimeLineID p.
Proof.
  intros Hv. apply Z.leb_le in Hv.
  rewrite !pgespresso_stop_backup_eq.
  unfold with_recovery_status; cbn [superuser do_pg_stop_backup].
  destruct (superuser pg (xlog p)); [|now split].
  unfold stop_reply, stop_timeline. rewrite Hv.
  now destruct (do_pg_stop_backup pg _ false _ (xlog p)) as [[sp tl] x|e x].
Qed.

Lemma stop_9_3_ignores_recovery_witness :
  90300 <= PG_VERSION_NUM Sample.pg_9_3
  /\ (pgespresso_stop_backup Sample.pg_9_3
        (with_recovery_status Registry.pg (fun _ => true) (fun _ => (0, 9)))
        Sample.nightly_label (Sample.operator_at false 300)
      = pgespresso_stop_backup Sample.pg_9_3 Registry.pg Sample.nightly_label
          (Sample.operator_at false 300)
      /\ ThisTimeLineID
           (state_of (pgespresso_stop_backup Sample.pg_9_3 Registry.pg
                        Sample.nightly_label (Sample.operator_at false 300)))
         = ThisTimeLineID (Sample.operator_at false 300)).
Proof.
  split; [vm_compute; discriminate|].
  apply (stop_9_3_ignores_recovery Sample.pg_9_3 Registry.pg
           (fun _ => true) (fun _ => (0, 9)) Sample.nightly_label
           (Sample.operator_at false 300)).
  vm_compute; discriminate.
Defined.

(** X5: before 9.3, stop does not use a timeline reported by
    [do_pg_stop_backup], which has no such output there: whatever that
    component is made to be, the call does the same. *)
Theorem stop_9_2_ignores_endtli {X : Type} (cfg : pg_config)
    (pg : backend X) (f : TimeLineID -> TimeLineID) (labelfile : text)
    (p : process X) :
  PG_VERSION_NUM cfg < 90300 ->
  pgespresso_stop_backup cfg (with_reported_endtli pg f) labelfile p
  = pgespresso_stop_backup cfg pg labelfile p.
Proof.
  intros Hv. apply Z.leb_gt in Hv.
  rewrite !pgespresso_stop_backup_eq.
  unfold with_reported_endtli; cbn [superuser do_pg_stop_backup].
  destruct (superuser pg (xlog p)); [|reflexivity].
  destruct (do_pg_stop_backup pg _ false _ (xlog p)) as [[sp tl] x|e x];
    [|reflexivity].
  unfold stop_reply, stop_timeline, resolved_timeline.
  rewrite Hv. reflexivity.
Qed.

Lemma stop_9_2_ignores_endtli_witness :
  PG_VERSION_NUM Sample.pg_9_2 < 90300
  /\ pgespresso_stop_backup Sample.pg_9_2
       (with_reported_endtli Registry.pg (fun _ => 77))
       Sample.nightly_label (Sample.operator_at true 300)
     = pgespresso_stop_backup Sample.pg_9_2 Registry.pg Sample.nightly_label
         (Sample.operator_at true 300).
Proof.
  split; [vm_compute; reflexivity|].
  apply (stop_9_2_ignores_endtli Sample.pg_9_2 Registry.pg (fun _ => 77)
           Sample.nightly_label (Sample.operator_at true 300)).
  vm_compute; reflexivity.
Defined.

(** ** File names and segments *)

(** The fields of a name, for either build. *)
Lemma segment_name_fields (cfg : pg_config) (position : XLogRecPtr)
    (timeline : TimeLineID) :
  valid_config cfg -> valid_position cfg position ->
  exists log seg : Z,
    segment_name cfg position timeline
      = fmt_08X timeline +:+ fmt_08X log +:+ fmt_08X seg
    /\ 0 <= log < 2 ^ 32
    /\ 0 <= seg < 2 ^ 32 / XLOG_SEG_SIZE cfg
    /\ log * 2 ^ 32 + seg * XLOG_SEG_SIZE cfg < position
         <= log * 2 ^ 32 + seg * XLOG_SEG_SIZE cfg + XLOG_SEG_SIZE cfg.
Proof.
  intros Hcfg [Hpos Hoff]. unfold segment_name.
  destruct (Z.leb_spec 90300 (PG_VERSION_NUM cfg)) as [Hv|Hv].
  - eexists _, _. split; [reflexivity|].
    apply (prev_seg_9_3 cfg position Hcfg Hpos).
  - pose proof (prev_seg_9_2 cfg position Hcfg Hpos (Hoff Hv)) as H.
    unfold Pg92.XLByteToPrevSeg in *. cbn [fst snd] in H.
    eexists _, _. split; [reflexivity|]. exact H.
Qed.

(** The segment that such fields designate is the one of the byte before
    the position. *)
Lemma fields_segment (S position log seg : Z) :
  0 < S -> 4294967296 mod S = 0 ->
  0 <= seg < 4294967296 / S ->
  log * 4294967296 + seg * S < position <= log * 4294967296 + seg * S + S ->
  (position - 1) / S = log * (4294967296 / S) + seg.
Proof.
  intros HS Hdiv Hseg Hb.
  pose proof (Z.div_mod 4294967296 S ltac:(lia)) as HM. rewrite Hdiv in HM.
  set (M := 4294967296 / S) in *.
  assert (HlM : log * 4294967296 = S * (log * M)) by (rewrite HM at 1; ring).
  symmetry. apply (Z.div_unique_pos _ _ _ (position - 1 - S * (log * M + seg)));
    lia.
Qed.

Lemma segment_fields_unique (M log seg log' seg' : Z) :
  0 <= seg < M -> 0 <= seg' < M ->
  log * M + seg = log' * M + seg' -> log = log' /\ seg = seg'.
Proof.
  intros Hs Hs' H.
  assert (Hl : log = log') by nia.
  subst log'. split; [reflexivity|lia].
Qed.

(** X6: two valid stop positions, with their timelines, get the same file
    name exactly when the timelines are equal and the bytes before the two
    positions lie in the same segment; so the name tells the segment and the
    timeline, and nothing more of the position. *)
Theorem segment_names_equal_iff (cfg : pg_config)
    (position position' : XLogRecPtr) (timeline timeline' : TimeLineID) :
  valid_config cfg ->
  valid_position cfg position -> valid_position cfg position' ->
  0 <= timeline < 2 ^ 32 -> 0 <= timeline' < 2 ^ 32 ->
  (segment_name cfg position timeline = segment_name cfg position' timeline'
   <-> timeline = timeline'
       /\ (position - 1) / XLOG_SEG_SIZE cfg
          = (position' - 1) / XLOG_SEG_SIZE cfg).
Proof.
  intros Hcfg Hp Hp' Ht Ht'.
  destruct (segment_name_fields cfg position timeline Hcfg Hp)
    as (l & g & Hn & Hl & Hg & Hb).
  destruct (segment_name_fields cfg position' timeline' Hcfg Hp')
    as (l' & g' & Hn' & Hl' & Hg' & Hb').
  destruct Hcfg as [HS Hdiv].
  change (2 ^ 32) with 4294967296 in *.
  assert (HM : 4294967296 / XLOG_SEG_SIZE cfg <= 4294967296)
    by (apply Z.div_le_upper_bound; nia).
  rewrite (fields_segment _ _ l g) by (try assumption; lia).
  rewrite (fields_segment _ _ l' g') by (try assumption; lia).
  rewrite Hn, Hn'. split.
  - intros H. apply file_name_inj in H as (-> & -> & ->);
      try (change (2 ^ 32) with 4294967296); lia.
  - intros [-> H].
    apply segment_fields_unique in H as [-> ->]; [reflexivity|lia|lia].
Qed.

Lemma segment_names_equal_iff_witness :
  (valid_config Sample.pg_9_3
   /\ valid_position Sample.pg_9_3 300 /\ valid_position Sample.pg_9_3 16777216)
  /\ (segment_name Sample.pg_9_3 300 1 = segment_name Sample.pg_9_3 16777216 1
      <-> 1 = 1
          /\ (300 - 1) / XLOG_SEG_SIZE Sample.pg_9_3
             = (16777216 - 1) / XLOG_SEG_SIZE Sample.pg_9_3).
Proof.
  assert (Hcfg : valid_config Sample.pg_9_3)
    by (split; [split; reflexivity|reflexivity]).
  assert (Hp : valid_position Sample.pg_9_3 300)
    by (split; [split; reflexivity|intros H; discriminate H]).
  assert (Hp' : valid_position Sample.pg_9_3 16777216)
    by (split; [split; reflexivity|intros H; discriminate H]).
  split; [split; [exact Hcfg|split; [exact Hp|exact Hp']]|].
  apply (segment_names_equal_iff Sample.pg_9_3 300 16777216 1 1 Hcfg Hp Hp');
    split; (discriminate || reflexivity).
Defined.

(** Both shapes of the macros give the same name to a valid position. *)
Lemma segment_name_builds_agree (old new : pg_config)
    (position : XLogRecPtr) (timeline : TimeLineID) :
  PG_VERSION_NUM old < 90300 <= PG_VERSION_NUM new ->
  XLOG_SEG_SIZE old = XLOG_SEG_SIZE new ->
  valid_config old -> valid_position old position ->
  segment_name old position timeline = segment_name new position timeline.
Proof.
  intros Hv HS Hcfg Hp.
  assert (Hcfg' : valid_config new) by (unfold valid_config; now rewrite <- HS).
  assert (Hp' : valid_position new position).
  { destruct Hp as [Hp _]. split; [exact Hp|]. lia. }
  destruct (segment_name_fields old position timeline Hcfg Hp)
    as (l & g & Hn & Hl & Hg & Hb).
  destruct (segment_name_fields new position timeline Hcfg' Hp')
    as (l' & g' & Hn' & Hl' & Hg' & Hb').
  rewrite <- HS in *. destruct Hcfg as [HS0 Hdiv].
  change (2 ^ 32) with 4294967296 in *.
  pose proof (fields_segment _ _ l g (proj1 HS0) Hdiv Hg Hb) as E.
  pose proof (fields_segment _ _ l' g' (proj1 HS0) Hdiv Hg' Hb') as E'.
  rewrite E in E'.
  apply segment_fields_unique in E' as [-> ->]; [|lia|lia].
  now rewrite Hn, Hn'.
Qed.

(** X7: the two branches of the version test in stop agree.  For the same
    answer of [do_pg_stop_backup], a valid stop position and a reported
    timeline that is the one the older branch resolves, a pre-9.3 build and
    a later build with the same segment size return the same file name. *)
Theorem stop_builds_agree {X : Type} (old new : pg_config) (pg : backend X)
    (labelfile : text) (p : process X) (stoppoint : XLogRecPtr)
    (endtli : TimeLineID) (x : X) :
  PG_VERSION_NUM old < 90300 <= PG_VERSION_NUM new ->
  XLOG_SEG_SIZE old = XLOG_SEG_SIZE new ->
  valid_config old ->
  superuser pg (xlog p) = true ->
  do_pg_stop_backup pg (text_to_cstring labelfile) false
    (ThisTimeLineID p) (xlog p) = Ok (stoppoint, endtli) x ->
  valid_position old stoppoint ->
  endtli = resolved_timeline pg (Build_process (ThisTimeLineID p) x) ->
  exists (t : text) (p1 p2 : process X),
    pgespresso_stop_backup old pg labelfile p = Return t p1
    /\ pgespresso_stop_backup new pg labelfile p = Return t p2
    /\ xlog p1 = x /\ xlog p2 = x.
Proof.
  intros Hv HS Hcfg Hsu Hstop Hpos Htl.
  rewrite !pgespresso_stop_backup_eq, Hsu, Hstop.
  unfold stop_reply, stop_timeline.
  destruct Hv as [Hold Hnew].
  apply Z.leb_gt in Hold as Hold'. apply Z.leb_le in Hnew as Hnew'.
  rewrite Hold', Hnew', <- Htl.
  rewrite (segment_name_builds_agree old new stoppoint endtli
             (conj Hold Hnew) HS Hcfg Hpos).
  eexists _, _, _. split; [reflexivity|].
  split; [reflexivity|]. split; reflexivity.
Qed.

Lemma stop_builds_agree_witness :
  (PG_VERSION_NUM Sample.pg_9_2 < 90300 <= PG_VERSION_NUM Sample.pg_9_3
   /\ valid_config Sample.pg_9_2
   /\ valid_position Sample.pg_9_2 300)
  /\ exists (t : text) (p1 p2 : process Registry.engine),
       pgespresso_stop_backup Sample.pg_9_2 Registry.pg Sample.nightly_label
         (Sample.operator_at false 300) = Return t p1
       /\ pgespresso_stop_backup Sample.pg_9_3 Registry.pg
            Sample.nightly_label (Sample.operator_at false 300) = Return t p2
       /\ xlog p1
          = Registry.close_session 0 (xlog (Sample.operator_at false 300))
       /\ xlog p2
          = Registry.close_session 0 (xlog (Sample.operator_at false 300)).
Proof.
  assert (Hv : PG_VERSION_NUM Sample.pg_9_2 < 90300
               <= PG_VERSION_NUM Sample.pg_9_3)
    by (split; [reflexivity|discriminate]).
  assert (Hcfg : valid_config Sample.pg_9_2)
    by (split; [split; reflexivity|reflexivity]).
  assert (Hp : valid_position Sample.pg_9_2 300)
    by (split; [split; reflexivity|intros _ H; discriminate H]).
  split; [split; [exact Hv|split; [exact Hcfg|exact Hp]]|].
  apply (stop_builds_agree Sample.pg_9_2 Sample.pg_9_3 Registry.pg
           Sample.nightly_label (Sample.operator_at false 300) 300 1
           (Registry.close_session 0 (xlog (Sample.operator_at false 300)))
           Hv eq_refl Hcfg eq_refl);
    [vm_compute; reflexivity|exact Hp|reflexivity].
Defined.

(** ** Sequences of calls on any backend *)

Lemma perform_on_unauthorized {X : Type} (cfg : pg_config) (pg : backend X)
    (o : Trace.operation) (p : process X) :
  superuser pg (xlog p) = false ->
  perform_on cfg pg o p = Error ERRCODE_INSUFFICIENT_PRIVILEGE p.
Proof.
  intros Hsu. destruct o as [backupid fast|labelfile|]; unfold perform_on.
  - unfold mbind, fmgr_bind. now rewrite pgespresso_start_backup_eq, Hsu.
  - unfold mbind, fmgr_bind. now rewrite pgespresso_stop_backup_eq, Hsu.
  - now rewrite pgespresso_abort_backup_eq, Hsu.
Qed.

(** X8: a caller that is not a superuser gets nowhere by insisting: however
    many calls it makes, of whichever entry points and with whatever
    arguments, each one raises the insufficient-privilege error and the
    process and the backend end up exactly as they started. *)
Theorem unauthorized_calls_change_nothing {X : Type} (cfg : pg_config)
    (pg : backend X) (ops : list Trace.operation) (p : process X) :
  superuser pg (xlog p) = false ->
  run_on cfg pg ops p = p
  /\ Forall (fun o => perform_on cfg pg o p
                      = Error ERRCODE_INSUFFICIENT_PRIVILEGE p) ops.
Proof.
  intros Hsu. unfold run_on. induction ops as [|o ops [IHrun IHall]].
  - split; [reflexivity|constructor].
  - pose proof (perform_on_unauthorized cfg pg o p Hsu) as Ho.
    split.
    + cbn [fold_left]. rewrite Ho. exact IHrun.
    + constructor; assumption.
Qed.

Lemma unauthorized_calls_change_nothing_witness :
  superuser Registry.pg (xlog Sample.intruder) = false
  /\ (run_on Sample.pg_9_2 Registry.pg
        [Trace.start Sample.nightly true; Trace.stop Sample.nightly_label;
         Trace.abort] Sample.intruder
      = Sample.intruder
      /\ Forall (fun o => perform_on Sample.pg_9_2 Registry.pg o Sample.intruder
                          = Error ERRCODE_INSUFFICIENT_PRIVILEGE
                              Sample.intruder)
           [Trace.start Sample.nightly true; Trace.stop Sample.nightly_label;
            Trace.abort]).
Proof.
  split; [reflexivity|].
  apply (unauthorized_calls_change_nothing Sample.pg_9_2 Registry.pg
           [Trace.start Sample.nightly true; Trace.stop Sample.nightly_label;
            Trace.abort] Sample.intruder).
  reflexivity.
Defined.

Lemma perform_on_primary {X : Type} (cfg : pg_config) (pg : backend X)
    (o : Trace.operation) (p : process X) :
  (forall x : X, RecoveryInProgress pg x = false) ->
  ThisTimeLineID (state_of (perform_on cfg pg o p)) = ThisTimeLineID p.
Proof.
  intros Hprim. destruct o as [backupid fast|labelfile|]; unfold perform_on.
  - unfold mbind, fmgr_bind. rewrite pgespresso_start_backup_eq.
    destruct (superuser pg (xlog p)); [|reflexivity].
    unfold start_reply, resolved_timeline. rewrite Hprim.
    now destruct (do_pg_start_backup pg _ fast _ (xlog p)) as [[sp lf] x|e x].
  - unfold mbind, fmgr_bind. rewrite pgespresso_stop_backup_eq.
    destruct (superuser pg (xlog p)); [|reflexivity].
    unfold stop_reply, resolved_timeline.
    destruct (do_pg_stop_backup pg _ false _ (xlog p)) as [[sp tl] x|e x];
      [|reflexivity].
    cbn [xlog]. rewrite Hprim.
    now destruct (90300 <=? PG_VERSION_NUM cfg).
  - rewrite pgespresso_abort_backup_eq.
    destruct (superuser pg (xlog p)); [|reflexivity].
    now destruct (do_pg_abort_backup pg (xlog p)) as [[] x|e x].
Qed.

(** X9: on a server that is never in recovery, no sequence of calls to the
    three entry points, successful or not and in any build, changes
    [ThisTimeLineID]: the global is only ever assigned inside the recovery
    test. *)
Theorem primary_keeps_ThisTimeLineID {X : Type} (cfg : pg_config)
    (pg : backend X) (ops : list Trace.operation) (p : process X) :
  (forall x : X, RecoveryInProgress pg x = false) ->
  ThisTimeLineID (run_on cfg pg ops p) = ThisTimeLineID p.
Proof.
  intros Hprim. unfold run_on. revert p.
  induction ops as [|o ops IH]; intros p; [reflexivity|].
  cbn [fold_left]. rewrite IH. now apply perform_on_primary.
Qed.

Lemma primary_keeps_ThisTimeLineID_witness :
  (forall x : Registry.engine,
     RecoveryInProgress
       (with_recovery_status Registry.pg (fun _ => false)
          (GetXLogReplayRecPtr Registry.pg)) x = false)
  /\ ThisTimeLineID
       (run_on Sample.pg_9_2
          (with_recovery_status Registry.pg (fun _ => false)
             (GetXLogReplayRecPtr Registry.pg))
          [Trace.start Sample.nightly false; Trace.stop Sample.nightly_label;
           Trace.abort] Sample.operator)
     = 1.
Proof.
  split; [intros x; reflexivity|].
  apply (primary_keeps_ThisTimeLineID Sample.pg_9_2
           (with_recovery_status Registry.pg (fun _ => false)
              (GetXLogReplayRecPtr Registry.pg))
           [Trace.start Sample.nightly false; Trace.stop Sample.nightly_label;
            Trace.abort] Sample.operator).
  intros x; reflexivity.
Defined.

(** ** Start on a standby *)

(** X10: in recovery, what a superuser's start does owes nothing to the
    value [ThisTimeLineID] had before the call (0 in a normal backend): the
    backend call, the returned label and the final state are the same for
    any two initial values, because the global is overwritten with the
    replay timeline before [do_pg_start_backup] reads it. *)
Theorem standby_start_ignores_stale_timeline {X : Type} (pg : backend X)
    (backupid : text) (fast : bool) (x : X) (tli tli' : TimeLineID) :
  superuser pg x = true ->
  RecoveryInProgress pg x = true ->
  pgespresso_start_backup pg backupid fast (Build_process tli x)
  = pgespresso_start_backup pg backupid fast (Build_process tli' x).
Proof.
  intros Hsu Hrec. rewrite !pgespresso_start_backup_eq.
  unfold resolved_timeline. cbn [xlog]. now rewrite Hsu, Hrec.
Qed.

Lemma standby_start_ignores_stale_timeline_witness :
  (superuser Registry.pg (xlog Sample.standby_operator) = true
   /\ RecoveryInProgress Registry.pg (xlog Sample.standby_operator) = true)
  /\ pgespresso_start_backup Registry.pg Sample.nightly false
       (Build_process 0 (xlog Sample.standby_operator))
     = pgespresso_start_backup Registry.pg Sample.nightly false
         (Build_process 3 (xlog Sample.standby_operator)).
Proof.
  split; [split; reflexivity|].
  apply (standby_start_ignores_stale_timeline Registry.pg Sample.nightly false
           (xlog Sample.standby_operator) 0 3); reflexivity.
Defined.
